(** * Gaze overlay demos: [eyetracking/pyside.py] and [eyeware.py]

    Both scripts are callback glue around the eye tracker's frontend API,
    the video receiver and OpenCV.  The embedding keeps the scripts' own
    control flow and records every call into those libraries as an event
    of a trace; what the libraries hand back (responses, gaze packets,
    tracked persons, the pressed key) is input.  A call a library refuses
    is still a call: it is the last event of the callback's trace, and the
    callback's outcome is the exception. *)

From Stdlib Require Import ZArith List Bool String Floats Lia.
Import ListNotations.
Open Scope Z_scope.

(** ** Python values the scripts compute with *)

(** Exceptions the scripts can meet: [sys.exit()] raises [SystemExit];
    [int()] raises [OverflowError] on an infinity and [ValueError] on a NaN;
    [Process.terminate()] raises [AttributeError] on a process that was
    never started; cv2 raises [cv2.error] on an argument it cannot take. *)
Inductive exn := SystemExit | OverflowError | ValueError | AttributeError | cv2_error.

(** Truthiness of the value an SDK response callback receives
    ([if error:], [if not error:]). *)
Class Truthy (A : Type) := truthy : A -> bool.

#[export] Instance Truthy_Z : Truthy Z := fun z => negb (z =? 0).
#[export] Instance Truthy_bool : Truthy bool := fun b => b.

(** [math.isnan] on a binary64 float. *)
Definition math_isnan (x : float) : bool := PrimFloat.is_nan x.

(** Python's [int(x)] on a float: truncation toward zero of the exact value
    [(-1)^s * m * 2^e]; infinities and NaN raise. *)
Definition py_int (x : float) : exn + Z :=
  match Prim2SF x with
  | S754_zero _ => inr 0
  | S754_finite s m e =>
      let a := if 0 <=? e then Z.pos m * 2 ^ e else Z.pos m / 2 ^ (- e) in
      inr (if s then - a else a)
  | S754_infinity _ => inl OverflowError
  | S754_nan => inl ValueError
  end.

(** ** The libraries' surface, as events *)

Inductive packet_type := GAZE_IN_IMAGE.
Inductive camera_resolution := MEDIUM.
Inductive log_mode := BASIC.
Inductive font := FONT_HERSHEY_SIMPLEX.
Inductive line_type := LINE_8 | LINE_AA.

(** The callables the scripts pass to the libraries. *)
Inductive callback :=
| cb_handle_gaze_in_image_stream
| cb_handle_connect_response
| cb_handle_camera_start_response
| cb_handle_video_stream
| cb_lambda_none.                     (* lambda *args: None *)

Definition colour := list Z.
Definition point := (Z * Z)%type.
Definition gaze := (float * float)%type.

(** cv2 takes the coordinates of a point as C ints: a Python int outside
    their range makes the drawing call fail with [cv2.error]. *)
Definition c_int (z : Z) : bool := (- 2 ^ 31 <=? z) && (z <=? 2 ^ 31 - 1).
Definition cv2_point (p : point) : bool := c_int (fst p) && c_int (snd p).

(** cv2 keeps a decoded colour image as the planes blue, green, red, and a
    drawing call's colour tuple is read in that order: the (red, green,
    blue) a tuple shows as on the frame. *)
Definition shown (c : colour) : Z * Z * Z := (nth 2 c 0, nth 1 c 0, nth 0 c 0).

(** The texts drawn on a frame: ["ID {}".format(objectID)] and
    [f"{x}, {y}"] of the stored gaze coordinates. *)
Inductive text :=
| ID_text (objectID : Z)
| gaze_text (g : gaze).

Section Events.
Context {address response : Type}.

Inductive event :=
(* adhawkapi.frontend.FrontendApi *)
| FrontendApi
| register_stream_handler (p : packet_type) (h : callback)
| api_start (connect_cb : callback)
| stop_video_stream (a : address) (cb : callback)
| stop_camera_capture (cb : callback)
| stop_log_session (cb : callback)
| api_shutdown
| set_stream_control (p : packet_type) (rate : Z) (cb : callback)
| start_camera_capture (camera_index : Z) (resolution_index : camera_resolution)
                       (correct_distortion : bool) (cb : callback)
| start_log_session (m : log_mode) (cb : callback)
| start_video_stream (a : address) (cb : callback)
(* adhawkapi.frontend.VideoReceiver, CentroidTracker *)
| VideoReceiver
| add_callback (h : callback)
| receiver_start
| CentroidTracker
| is_person_seen_call (objectID : Z) (g : gaze)
(* cv2 *)
| putText (t : text) (org : point) (f : font) (fontScale : float)
          (c : colour) (thickness : Z) (lt : line_type)
| circle (center : point) (radius : Z) (c : colour) (thickness : Z)
| rectangle (pt1 pt2 : point) (c : colour) (thickness : Z)
| imshow (winname : string)
| waitKey (delay : Z)
| destroyAllWindows
(* print, multiprocessing *)
| print_str (s : string)
| print_camera_start_error (error : response)
| print_gaze (g : gaze)
| Process_start (target : string) (arg : string)
| Process_terminate (target : string) (arg : string).
End Events.
Arguments event : clear implicits.

(** ** What [Pedestrian_tracking] hands back

    A tracked person, as the frame handler reads it.  The class is not part
    of the scripts: its attributes are taken as given, [rect] standing for
    the box [person.rect[1]] and [is_person_seen] for the method's answer.
    [centroid] and [rect] are pixel coordinates of a detection in the
    frame, which cv2's drawing calls take. *)
Record person := {
  centroid : point;
  rect : Z * Z * Z * Z;
  is_seen : bool;
  is_person_close : bool;
  is_person_seen : gaze -> bool
}.

(** ** Callbacks as programs

    A callback runs on a store, leaves a trace of events and either
    returns or raises; what it did before raising stays done. *)

Inductive outcome (A : Type) :=
| Returned (a : A)
| Raised (e : exn).
Arguments Returned {A} a.
Arguments Raised {A} e.

Definition prog (E S A : Type) : Type := S -> list E * S * outcome A.

Section Prog.
Context {E S : Type}.

Definition ret {A} (a : A) : prog E S A := fun s => ([], s, Returned a).

Definition bind {A B} (c : prog E S A) (k : A -> prog E S B) : prog E S B :=
  fun s =>
    match c s with
    | (t1, s1, Returned a) =>
        match k a s1 with (t2, s2, o) => (t1 ++ t2, s2, o) end
    | (t1, s1, Raised e) => (t1, s1, Raised e)
    end.

Definition call (e : E) : prog E S unit := fun s => ([e], s, Returned tt).
Definition raise {A} (e : exn) : prog E S A := fun s => ([], s, Raised e).

(** A call the library refuses: it is made, and raises. *)
Definition refused {A} (e : E) (x : exn) : prog E S A :=
  fun s => ([e], s, Raised x).
Definition get : prog E S S := fun s => ([], s, Returned s).
Definition put (s : S) : prog E S unit := fun _ => ([], s, Returned tt).

(** [for x in xs: local = body local x], the loop's local threaded through. *)
Fixpoint for_each {A L} (xs : list A) (body : L -> A -> prog E S L) (l : L)
  : prog E S L :=
  match xs with
  | [] => ret l
  | x :: xs' => bind (body l x) (for_each xs' body)
  end.

Definition trace {A} (r : list E * S * outcome A) : list E := fst (fst r).
Definition store {A} (r : list E * S * outcome A) : S := snd (fst r).
Definition result {A} (r : list E * S * outcome A) : outcome A := snd r.
End Prog.

Declare Scope prog_scope.
Delimit Scope prog_scope with prog.
Notation "x <- c ;; k" := (bind c (fun x => k))
  (at level 61, c at next level, right associativity) : prog_scope.
Notation "c ;; k" := (bind c (fun _ => k))
  (at level 61, right associativity) : prog_scope.
Open Scope prog_scope.

(** Run a program of a component inside a larger store. *)
Definition zoom {E S T A} (proj : T -> S) (upd : S -> T -> T) (c : prog E S A)
  : prog E T A :=
  fun t => match c (proj t) with (tr, s, o) => (tr, upd s t, o) end.

(** ** [src/eyetracking/pyside.py] *)

Module Pyside.
Section Script.
Context {address response : Type} `{Truthy response}.
Abbreviation event := (event address response).

Definition MARKER_SIZE : Z := 20.
Definition MARKER_COLOR : colour := [0; 250; 50].
Definition SECONDARY_MARKER_SIZE : Z := 200.
Definition SECONDARY_MARKER_COLOR : colour := [250; 0; 0; 64].
Definition FONT : font := FONT_HERSHEY_SIMPLEX.
Definition FONT_SCALE : float := 1.
Definition TEXT_ORG : point := (50, 50).
Definition TEXT_COLOR : colour := [0; 0; 255].
Definition TEXT_THICKNESS : Z := 2.

(** class Frontend *)
Record Frontend := {
  _video_receiver_address : address;
  connected : bool
}.

Definition set_connected (b : bool) : prog event Frontend unit :=
  self <- get ;;
  put {| _video_receiver_address := self.(_video_receiver_address);
         connected := b |}.

Definition Frontend__init__ (video_receiver_address : address)
  : list event * Frontend :=
  ([FrontendApi;
    register_stream_handler GAZE_IN_IMAGE cb_handle_gaze_in_image_stream;
    api_start cb_handle_connect_response],
   {| _video_receiver_address := video_receiver_address;
      connected := false |}).

Definition shutdown : prog event Frontend unit :=
  self <- get ;;
  call (stop_video_stream self.(_video_receiver_address) cb_lambda_none) ;;
  call (stop_camera_capture cb_lambda_none) ;;
  call (stop_log_session cb_lambda_none) ;;
  call api_shutdown.

Definition _handle_connect_response (error : response)
  : prog event Frontend unit :=
  if negb (truthy error) then
    call (set_stream_control GAZE_IN_IMAGE 125 cb_lambda_none) ;;
    call (start_camera_capture 1 MEDIUM false cb_handle_camera_start_response) ;;
    call (start_log_session BASIC cb_lambda_none) ;;
    set_connected true
  else ret tt.

Definition _handle_camera_start_response (error : response)
  : prog event Frontend unit :=
  if truthy error then
    call (print_camera_start_error error) ;;
    shutdown ;;
    raise SystemExit
  else
    self <- get ;;
    call (start_video_stream self.(_video_receiver_address) cb_lambda_none).

(** class GazeViewer *)
Record GazeViewer := {
  frontend : Frontend;
  _gaze_coordinates : gaze
}.

Definition on_frontend {A} (c : prog event Frontend A) : prog event GazeViewer A :=
  zoom frontend
       (fun f self => {| frontend := f;
                         _gaze_coordinates := self.(_gaze_coordinates) |})
       c.

(** [video_receiver_address] is what the receiver reports as its address.
    The dummy coordinates [(0, 0)] are Python ints; they are kept as the
    float zero, which [math.isnan], [/], [*] and [int()] treat alike. *)
Definition GazeViewer__init__ (video_receiver_address : address)
  : list event * GazeViewer :=
  let '(t, f) := Frontend__init__ video_receiver_address in
  ([VideoReceiver; add_callback cb_handle_video_stream; receiver_start] ++ t,
   {| frontend := f; _gaze_coordinates := (0%float, 0%float) |}).

Definition close : prog event GazeViewer unit :=
  on_frontend shutdown ;;
  call destroyAllWindows.

(** A received frame, as far as the handler looks at it: the decoded
    image's size and the key [cv2.waitKey(1)] returns. *)
Record frame := {
  width : Z;
  height : Z;
  key : Z
}.

Definition _handle_video_stream (fr : frame) : prog event GazeViewer unit :=
  self <- get ;;
  call (putText (gaze_text self.(_gaze_coordinates)) TEXT_ORG FONT FONT_SCALE
                TEXT_COLOR TEXT_THICKNESS LINE_AA) ;;
  call (imshow "preview"%string) ;;
  call (waitKey 1) ;;
  (if Z.land fr.(key) 255 =? 113 then close else ret tt) ;;
  self <- get ;;
  call (print_gaze self.(_gaze_coordinates)).

Definition _handle_gaze_in_image_stream (gaze_img_x gaze_img_y : float)
  : prog event GazeViewer unit :=
  self <- get ;;
  put {| frontend := self.(frontend);
         _gaze_coordinates := (gaze_img_x, gaze_img_y) |}.

(** [closeEvent]: the window's close event shuts the API down. *)
Definition closeEvent : prog event GazeViewer unit :=
  on_frontend shutdown.

(** The [connected] property, which [main]'s waiting loop polls. *)
Definition GazeViewer_connected (self : GazeViewer) : bool :=
  self.(frontend).(connected).

(** [_draw_gaze_marker] is [pass]. *)
Definition _draw_gaze_marker : prog event GazeViewer unit := ret tt.

(** [main()] up to its waiting loop. *)
Definition main (video_receiver_address : address) : list event * GazeViewer :=
  let '(t, w) := GazeViewer__init__ video_receiver_address in
  (t ++ [print_str "Plug in your tracker and ensure AdHawk Backend is running."%string],
   w).

(** What the SDK and the receiver deliver to the script's callbacks. *)
Inductive input :=
| connect_response (error : response)
| camera_start_response (error : response)
| gaze_in_image (gaze_img_x gaze_img_y : float)
| video_frame (fr : frame).

Definition dispatch (i : input) : prog event GazeViewer unit :=
  match i with
  | connect_response error => on_frontend (_handle_connect_response error)
  | camera_start_response error => on_frontend (_handle_camera_start_response error)
  | gaze_in_image x y => _handle_gaze_in_image_stream x y
  | video_frame fr => _handle_video_stream fr
  end.

(** The callbacks of a run, one after the other, up to the first that raises. *)
Fixpoint deliver (ins : list input) : prog event GazeViewer unit :=
  match ins with
  | [] => ret tt
  | i :: ins' => dispatch i ;; deliver ins'
  end.

End Script.
Arguments Frontend : clear implicits.
Arguments GazeViewer : clear implicits.
Arguments input : clear implicits.
Arguments GazeViewer_connected {address} self.
End Pyside.

(** ** [src/eyeware.py] *)

Module Eyeware.
Section Script.
Context {address response : Type} `{Truthy response}.
Abbreviation event := (event address response).

Definition MARKER_SIZE : Z := 5.
Definition MARKER_COLOR : colour := [0; 250; 50].
Definition SECONDARY_MARKER_SIZE : Z := 20.
Definition SECONDARY_MARKER_COLOR : colour := [250; 0; 0; 64].
Definition FONT : font := FONT_HERSHEY_SIMPLEX.
Definition FONT_SCALE : float := 0.5.
Definition TEXT_ORG : point := (50, 50).
Definition TEXT_COLOR : colour := [0; 0; 255].
Definition TEXT_THICKNESS : Z := 2.

(** The rectangle colours of the frame handler, written as the source
    writes them.  The names read the tuples as (R, G, B), as the source's
    own comment [#R] on [(255, 0, 0)] does; [shown] gives what cv2 makes
    of them on the frame. *)
Definition green : colour := [0; 255; 0].
Definition red : colour := [255; 0; 0].
Definition yellow : colour := [255; 255; 0].

(** class Frontend *)
Record Frontend := {
  _video_receiver_address : address;
  connected : bool
}.

Definition set_connected (b : bool) : prog event Frontend unit :=
  self <- get ;;
  put {| _video_receiver_address := self.(_video_receiver_address);
         connected := b |}.

Definition Frontend__init__ (video_receiver_address : address)
  : list event * Frontend :=
  ([FrontendApi;
    register_stream_handler GAZE_IN_IMAGE cb_handle_gaze_in_image_stream;
    api_start cb_handle_connect_response],
   {| _video_receiver_address := video_receiver_address;
      connected := false |}).

Definition shutdown : prog event Frontend unit :=
  self <- get ;;
  call (stop_video_stream self.(_video_receiver_address) cb_lambda_none) ;;
  call (stop_camera_capture cb_lambda_none) ;;
  call (stop_log_session cb_lambda_none) ;;
  call api_shutdown.

Definition _handle_connect_response (error : response)
  : prog event Frontend unit :=
  if negb (truthy error) then
    call (set_stream_control GAZE_IN_IMAGE 125 cb_lambda_none) ;;
    call (start_camera_capture 1 MEDIUM false cb_handle_camera_start_response) ;;
    call (start_log_session BASIC cb_lambda_none) ;;
    set_connected true
  else ret tt.

Definition _handle_camera_start_response (error : response)
  : prog event Frontend unit :=
  if truthy error then
    call (print_camera_start_error error) ;;
    shutdown ;;
    raise SystemExit
  else
    self <- get ;;
    call (start_video_stream self.(_video_receiver_address) cb_lambda_none).

(** class GazeViewer.  [self.ct] is the external tracker: what its
    [update] returns for a frame is part of the frame below. *)
Record GazeViewer := {
  frontend : Frontend;
  _gaze_coordinates : gaze
}.

(** The script's store: the module-level [play_sound] and the viewer
    object the callbacks are bound to. *)
Record script := {
  play_sound : bool;
  main_window : GazeViewer
}.

Definition on_main_window {A} (c : prog event GazeViewer A) : prog event script A :=
  zoom main_window
       (fun w s => {| play_sound := s.(play_sound); main_window := w |})
       c.

Definition on_frontend {A} (c : prog event Frontend A) : prog event GazeViewer A :=
  zoom frontend
       (fun f self => {| frontend := f;
                         _gaze_coordinates := self.(_gaze_coordinates) |})
       c.

(** The dummy coordinates [(0, 0)] are Python ints; they are kept as the
    float zero, which [math.isnan], [/], [*] and [int()] treat alike. *)
Definition GazeViewer__init__ (video_receiver_address : address)
  : list event * GazeViewer :=
  let '(t, f) := Frontend__init__ video_receiver_address in
  ([VideoReceiver; add_callback cb_handle_video_stream; receiver_start] ++ t
     ++ [CentroidTracker],
   {| frontend := f; _gaze_coordinates := (0%float, 0%float) |}).

Definition close : prog event GazeViewer unit :=
  on_frontend shutdown ;;
  call destroyAllWindows.

(** A received frame, as far as the handler looks at it: the decoded
    image's size, the items of the dictionary [self.ct.update(results)]
    returns (in iteration order) and the key [cv2.waitKey(1)] returns. *)
Record frame := {
  width : Z;
  height : Z;
  objects : list (Z * person);
  key : Z
}.

Definition cv2_rectangle (p : person) (c : colour) : prog event GazeViewer unit :=
  let '(x0, y0, x1, y1) := p.(rect) in
  call (rectangle (x0, y0) (x1, y1) c 2).

(** The body of [for (objectID, person) in objects.items()].  The handler
    has no [global play_sound], so the name it assigns is a local of the
    handler: it is threaded through the loop as [play_sound]. *)
Definition loop_body (play_sound : bool) (item : Z * person)
  : prog event GazeViewer bool :=
  let '(objectID, person) := item in
  self <- get ;;
  call (putText (ID_text objectID)
                (fst person.(centroid) - 10, snd person.(centroid) - 10)
                FONT_HERSHEY_SIMPLEX 0.5 [0; 255; 0] 2 LINE_8) ;;
  call (circle person.(centroid) 4 [0; 255; 0] (-1)) ;;
  if person.(is_seen) then
    cv2_rectangle person [0; 255; 0] ;;
    ret play_sound
  else
    call (is_person_seen_call objectID self.(_gaze_coordinates)) ;;
    if negb (person.(is_person_seen) self.(_gaze_coordinates)) then
      if person.(is_person_close) then
        cv2_rectangle person [255; 0; 0] ;;
        ret true
      else
        cv2_rectangle person [255; 255; 0] ;;
        ret play_sound
    else
      cv2_rectangle person [0; 255; 0] ;;
      ret play_sound.

Definition py_int_ (x : float) : prog event GazeViewer Z :=
  match py_int x with
  | inr z => ret z
  | inl e => raise e
  end.

(** [cv2.circle] at a centre computed by the script: cv2 refuses a centre
    that is not a pair of C ints. *)
Definition cv2_circle (center : point) (radius : Z) (c : colour) (thickness : Z)
  : prog event GazeViewer unit :=
  if cv2_point center then call (circle center radius c thickness)
  else refused (circle center radius c thickness) cv2_error.

(** [_handle_video_stream] up to the end of the loop: the value of the
    handler's local [play_sound] there. *)
Definition tracked_persons (fr : frame) : prog event GazeViewer bool :=
  for_each fr.(objects) loop_body false.

Definition _handle_video_stream (fr : frame) : prog event GazeViewer unit :=
  play_sound <- tracked_persons fr ;;
  self <- get ;;
  let g := self.(_gaze_coordinates) in
  call (putText (gaze_text g) TEXT_ORG FONT FONT_SCALE
                TEXT_COLOR TEXT_THICKNESS LINE_AA) ;;
  (if negb (math_isnan (fst g) || math_isnan (snd g)) then
     x <- py_int_ (fst g / 1280 * 640)%float ;;
     y <- py_int_ (snd g / 720 * 360)%float ;;
     let fixed_gaze_coords := (x, y) in
     cv2_circle fixed_gaze_coords MARKER_SIZE MARKER_COLOR 2 ;;
     cv2_circle fixed_gaze_coords SECONDARY_MARKER_SIZE SECONDARY_MARKER_COLOR 2
   else ret tt) ;;
  call (imshow "preview"%string) ;;
  call (waitKey 1) ;;
  if Z.land fr.(key) 255 =? 113 then close else ret tt.

Definition _handle_gaze_in_image_stream (gaze_img_x gaze_img_y : float)
  : prog event GazeViewer unit :=
  self <- get ;;
  put {| frontend := self.(frontend);
         _gaze_coordinates := (gaze_img_x, gaze_img_y) |}.

(** The module-level function: it reads the module's [play_sound].  The
    process [p] is made anew by each call, so [p.terminate()] meets a
    process that was never started, and raises. *)
Definition play_warning_sound : prog event script unit :=
  s <- get ;;
  if s.(play_sound) then
    call (Process_start "playsound"%string "/sound/soundeffect.mp3"%string)
  else
    refused (Process_terminate "playsound"%string "/sound/soundeffect.mp3"%string)
            AttributeError.

(** [main()] from the module's initial store ([play_sound = False]), as far
    as it gets: the viewer is built and its callbacks are registered, then
    [play_warning_sound()] raises and the [print] after it is not reached. *)
Definition main (video_receiver_address : address) : list event * script * outcome unit :=
  let '(t, w) := GazeViewer__init__ video_receiver_address in
  let r := (play_warning_sound ;;
            call (print_str "Plug in your tracker and ensure AdHawk Backend is running."%string))
             {| play_sound := false; main_window := w |} in
  (t ++ trace r, store r, result r).

(** [closeEvent]: the window's close event shuts the API down. *)
Definition closeEvent : prog event GazeViewer unit :=
  on_frontend shutdown.

(** The [connected] property, which [main]'s waiting loop polls. *)
Definition GazeViewer_connected (self : GazeViewer) : bool :=
  self.(frontend).(connected).

(** [_draw_gaze_marker] is [pass]. *)
Definition _draw_gaze_marker : prog event GazeViewer unit := ret tt.

(** What the SDK and the receiver deliver to the script's callbacks. *)
Inductive input :=
| connect_response (error : response)
| camera_start_response (error : response)
| gaze_in_image (gaze_img_x gaze_img_y : float)
| video_frame (fr : frame).

Definition dispatch (i : input) : prog event script unit :=
  on_main_window
    match i with
    | connect_response error => on_frontend (_handle_connect_response error)
    | camera_start_response error => on_frontend (_handle_camera_start_response error)
    | gaze_in_image x y => _handle_gaze_in_image_stream x y
    | video_frame fr => _handle_video_stream fr
    end.

(** The callbacks of a run, one after the other, up to the first that raises. *)
Fixpoint deliver (ins : list input) : prog event script unit :=
  match ins with
  | [] => ret tt
  | i :: ins' => dispatch i ;; deliver ins'
  end.

End Script.
Arguments Frontend : clear implicits.
Arguments GazeViewer : clear implicits.
Arguments script : clear implicits.
Arguments input : clear implicits.
Arguments GazeViewer_connected {address} self.
End Eyeware.

(** * Properties *)

(** ** Reasoning about programs *)

Section ProgFacts.
Context {E S : Type}.

Lemma bind_returned {A B} (c : prog E S A) (k : A -> prog E S B) s t1 s1 a :
  c s = (t1, s1, Returned a) ->
  bind c k s = (t1 ++ trace (k a s1), store (k a s1), result (k a s1)).
Proof.
  intros Hc. unfold bind. rewrite Hc.
  destruct (k a s1) as [[t2 s2] o]. reflexivity.
Qed.

Lemma bind_raised {A B} (c : prog E S A) (k : A -> prog E S B) s t1 s1 e :
  c s = (t1, s1, Raised e) -> bind c k s = (t1, s1, Raised e).
Proof. intros Hc. unfold bind. rewrite Hc. reflexivity. Qed.

(** A program keeps [f] when no run of it changes [f] of the store,
    whether it returns or raises. *)
Definition keeps {A X} (f : S -> X) (c : prog E S A) : Prop :=
  forall s, f (store (c s)) = f s.

Lemma keeps_ret {A X} (f : S -> X) (a : A) : keeps f (ret a).
Proof. intro s. reflexivity. Qed.

Lemma keeps_call {X} (f : S -> X) (e : E) : keeps f (call e).
Proof. intro s. reflexivity. Qed.

Lemma keeps_raise {A X} (f : S -> X) (e : exn) : keeps f (@raise E S A e).
Proof. intro s. reflexivity. Qed.

Lemma keeps_refused {A X} (f : S -> X) (e : E) (x : exn) : keeps f (@refused E S A e x).
Proof. intro s. reflexivity. Qed.

Lemma keeps_get {X} (f : S -> X) : keeps f get.
Proof. intro s. reflexivity. Qed.

Lemma keeps_bind {A B X} (f : S -> X) (c : prog E S A) (k : A -> prog E S B) :
  keeps f c -> (forall a, keeps f (k a)) -> keeps f (bind c k).
Proof.
  intros Hc Hk s. unfold bind. specialize (Hc s).
  destruct (c s) as [[t1 s1] [a|e]]; cbn in *.
  - specialize (Hk a s1). destruct (k a s1) as [[t2 s2] o]; cbn in *. congruence.
  - exact Hc.
Qed.

Lemma keeps_for_each {A L X} (f : S -> X) (xs : list A) (body : L -> A -> prog E S L) :
  (forall l x, keeps f (body l x)) -> forall l, keeps f (for_each xs body l).
Proof.
  intros Hb. induction xs as [|x xs IH]; intro l; cbn.
  - apply keeps_ret.
  - apply keeps_bind; auto.
Qed.

(** A program never does [P] when no event of any of its traces is a [P]. *)
Definition never {A} (P : E -> Prop) (c : prog E S A) : Prop :=
  forall s, Forall (fun e => ~ P e) (trace (c s)).

Lemma never_ret {A} P (a : A) : never P (ret a).
Proof. intro s. constructor. Qed.

Lemma never_raise {A} P (e : exn) : never P (@raise E S A e).
Proof. intro s. constructor. Qed.

Lemma never_get P : never P get.
Proof. intro s. constructor. Qed.

Lemma never_put P s0 : never P (put s0).
Proof. intro s. constructor. Qed.

Lemma never_call P (e : E) : ~ P e -> never P (call e).
Proof. intros He s. repeat constructor. exact He. Qed.

Lemma never_refused {A} P (e : E) (x : exn) : ~ P e -> never P (@refused E S A e x).
Proof. intros He s. repeat constructor. exact He. Qed.

Lemma never_bind {A B} P (c : prog E S A) (k : A -> prog E S B) :
  never P c -> (forall a, never P (k a)) -> never P (bind c k).
Proof.
  intros Hc Hk s. unfold bind. specialize (Hc s).
  destruct (c s) as [[t1 s1] [a|e]]; cbn in *.
  - specialize (Hk a s1). destruct (k a s1) as [[t2 s2] o]; cbn in *.
    apply Forall_app; split; assumption.
  - exact Hc.
Qed.

Lemma never_for_each {A L} P (xs : list A) (body : L -> A -> prog E S L) :
  (forall l x, never P (body l x)) -> forall l, never P (for_each xs body l).
Proof.
  intros Hb. induction xs as [|x xs IH]; intro l; cbn.
  - apply never_ret.
  - apply never_bind; auto.
Qed.

Lemma bind_inv_returned {A B} (c : prog E S A) (k : A -> prog E S B) s b :
  result (bind c k s) = Returned b ->
  exists a,
    result (c s) = Returned a
    /\ result (k a (store (c s))) = Returned b
    /\ bind c k s
       = (trace (c s) ++ trace (k a (store (c s))),
          store (k a (store (c s))), Returned b).
Proof.
  unfold bind, trace, store, result.
  destruct (c s) as [[t1 s1] [a|e]]; cbn [fst snd].
  - intros Hk. exists a. split; [reflexivity|].
    destruct (k a s1) as [[t2 s2] o]; cbn [fst snd] in *. rewrite Hk.
    split; reflexivity.
  - discriminate.
Qed.
End ProgFacts.

Lemma keeps_zoom {E S T A X} (f : T -> X) (proj : T -> S) (upd : S -> T -> T)
      (c : prog E S A) :
  (forall s t, f (upd s t) = f t) -> keeps f (zoom proj upd c).
Proof.
  intros Hu t. unfold zoom. destruct (c (proj t)) as [[tr s] o]. cbn. apply Hu.
Qed.

Lemma never_zoom {E S T A} (P : E -> Prop) (proj : T -> S) (upd : S -> T -> T)
      (c : prog E S A) :
  never P c -> never P (zoom proj upd c).
Proof.
  intros Hc t. unfold zoom. specialize (Hc (proj t)).
  destruct (c (proj t)) as [[tr s] o]. exact Hc.
Qed.

Lemma zoom_run {E S T A} (proj : T -> S) (upd : S -> T -> T) (c : prog E S A) t :
  zoom proj upd c t
  = (trace (c (proj t)), upd (store (c (proj t))) t, result (c (proj t))).
Proof. unfold zoom. destruct (c (proj t)) as [[tr s] o]. reflexivity. Qed.

Create HintDb prog discriminated.
#[export] Hint Resolve keeps_ret keeps_call keeps_raise keeps_refused keeps_get
  keeps_bind keeps_for_each : prog.
#[export] Hint Resolve never_ret never_raise never_get never_put never_bind
  never_for_each never_zoom : prog.

(** ** The Frontend class *)

Section FrontendFacts.
Context {address response : Type} `{Truthy response}.
Abbreviation event := (event address response).

(** The calls of the shutdown sequence, in the order [shutdown] makes them. *)
Definition shutdown_sequence (a : address) : list event :=
  [stop_video_stream a cb_lambda_none;
   stop_camera_capture cb_lambda_none;
   stop_log_session cb_lambda_none;
   api_shutdown].

(** The calls a successful connection makes. *)
Definition session_start : list event :=
  [set_stream_control GAZE_IN_IMAGE 125 cb_lambda_none;
   start_camera_capture 1 MEDIUM false cb_handle_camera_start_response;
   start_log_session BASIC cb_lambda_none].

(** C4. In both scripts the connection callback, given a response that is
    not an error, sets the GAZE_IN_IMAGE stream rate to 125, starts camera
    capture, starts a log session (in this order) and sets [connected];
    given an error it makes no call and leaves the Frontend, its
    [connected] flag included, as it was: still [False] if it was. *)
Theorem connect_response_handling (error : response) (a : address) (c : bool) :
  (truthy error = false ->
     Pyside._handle_connect_response error
       {| Pyside._video_receiver_address := a; Pyside.connected := c |}
     = (session_start,
        {| Pyside._video_receiver_address := a; Pyside.connected := true |},
        Returned tt)
     /\
     Eyeware._handle_connect_response error
       {| Eyeware._video_receiver_address := a; Eyeware.connected := c |}
     = (session_start,
        {| Eyeware._video_receiver_address := a; Eyeware.connected := true |},
        Returned tt))
  /\
  (truthy error = true ->
     Pyside._handle_connect_response error
       {| Pyside._video_receiver_address := a; Pyside.connected := c |}
     = ([], {| Pyside._video_receiver_address := a; Pyside.connected := c |},
        Returned tt)
     /\
     Eyeware._handle_connect_response error
       {| Eyeware._video_receiver_address := a; Eyeware.connected := c |}
     = ([], {| Eyeware._video_receiver_address := a; Eyeware.connected := c |},
        Returned tt)).
Proof.
  unfold Pyside._handle_connect_response, Eyeware._handle_connect_response.
  split; intros ->; split; reflexivity.
Qed.

(** C10. In both scripts the camera-start callback, given an error, prints
    it, makes the four shutdown calls in the order stop video stream, stop
    camera capture, stop log session, shut down the API, and then leaves
    through [sys.exit()]; the video stream is started exactly when the
    response carries no error. *)
Theorem camera_start_response_handling (error : response) (a : address) (c : bool) :
  let pf := {| Pyside._video_receiver_address := a; Pyside.connected := c |} in
  let ef := {| Eyeware._video_receiver_address := a; Eyeware.connected := c |} in
  (truthy error = true ->
     Pyside._handle_camera_start_response error pf
     = (print_camera_start_error error :: shutdown_sequence a, pf, Raised SystemExit)
     /\
     Eyeware._handle_camera_start_response error ef
     = (print_camera_start_error error :: shutdown_sequence a, ef, Raised SystemExit))
  /\
  (truthy error = false ->
     Pyside._handle_camera_start_response error pf
     = ([start_video_stream a cb_lambda_none], pf, Returned tt)
     /\
     Eyeware._handle_camera_start_response error ef
     = ([start_video_stream a cb_lambda_none], ef, Returned tt))
  /\
  (forall a' cb,
     (In (start_video_stream a' cb) (trace (Pyside._handle_camera_start_response error pf))
      \/ In (start_video_stream a' cb) (trace (Eyeware._handle_camera_start_response error ef)))
     -> truthy error = false).
Proof.
  intros pf ef.
  unfold Pyside._handle_camera_start_response, Eyeware._handle_camera_start_response.
  destruct (truthy error) eqn:E; repeat split; try reflexivity; try discriminate.
  intros a' cb [Hin | Hin]; cbn in Hin;
    repeat (destruct Hin as [Hin | Hin]; [discriminate Hin|]); destruct Hin.
Qed.

(** The same Frontend, read in the other script. *)
Definition as_eyeware (f : Pyside.Frontend address) : Eyeware.Frontend address :=
  {| Eyeware._video_receiver_address := Pyside._video_receiver_address f;
     Eyeware.connected := Pyside.connected f |}.

Definition as_pyside (f : Eyeware.Frontend address) : Pyside.Frontend address :=
  {| Pyside._video_receiver_address := Eyeware._video_receiver_address f;
     Pyside.connected := Eyeware.connected f |}.

Definition run_as_eyeware {A} (r : list event * Pyside.Frontend address * outcome A)
  : list event * Eyeware.Frontend address * outcome A :=
  (trace r, as_eyeware (store r), result r).

Lemma as_pyside_as_eyeware f : as_pyside (as_eyeware f) = f.
Proof. destruct f; reflexivity. Qed.

Lemma as_eyeware_as_pyside f : as_eyeware (as_pyside f) = f.
Proof. destruct f; reflexivity. Qed.

(** C6. The Frontend class of [eyetracking/pyside.py] and that of
    [eyeware.py] behave alike: construction, the connection callback, the
    camera-start callback and [shutdown] make the same calls in the same
    order, end the same way (return or [SystemExit]) and leave the same
    address and [connected] flag, for every address, response and
    Frontend they are run on. *)
Theorem frontend_same_in_both_scripts :
  (forall a,
     fst (Eyeware.Frontend__init__ (response := response) a)
     = fst (Pyside.Frontend__init__ a)
     /\ snd (Eyeware.Frontend__init__ (response := response) a)
        = as_eyeware (snd (Pyside.Frontend__init__ (response := response) a)))
  /\
  (forall (f : Pyside.Frontend address) (error : response),
     Eyeware._handle_connect_response error (as_eyeware f)
     = run_as_eyeware (Pyside._handle_connect_response error f)
     /\
     Eyeware._handle_camera_start_response error (as_eyeware f)
     = run_as_eyeware (Pyside._handle_camera_start_response error f)
     /\
     Eyeware.shutdown (as_eyeware f) = run_as_eyeware (Pyside.shutdown f)).
Proof.
  split.
  - intro a. split; reflexivity.
  - intros [a c] error. unfold run_as_eyeware.
    unfold Eyeware._handle_connect_response, Pyside._handle_connect_response,
      Eyeware._handle_camera_start_response, Pyside._handle_camera_start_response.
    destruct (truthy error); repeat split; reflexivity.
Qed.
End FrontendFacts.

(** ** The frame handler of [eyeware.py] *)

Section EyewareFrames.
Context {address response : Type} `{Truthy response}.
Abbreviation event := (event address response).
Import Eyeware.

(** The condition of the branch that draws [red]. *)
Definition flagged (g : gaze) (p : person) : bool :=
  negb p.(is_seen) && negb (p.(is_person_seen) g) && p.(is_person_close).

Definition box (p : person) (c : colour) : event :=
  let '(x0, y0, x1, y1) := p.(rect) in rectangle (x0, y0) (x1, y1) c 2.

Definition label (objectID : Z) (p : person) : list event :=
  [putText (ID_text objectID) (fst p.(centroid) - 10, snd p.(centroid) - 10)
           FONT_HERSHEY_SIMPLEX 0.5 [0; 255; 0] 2 LINE_8;
   circle p.(centroid) 4 [0; 255; 0] (-1)].

(** The events of one pass of the loop, read off [loop_body]. *)
Definition pass (g : gaze) (item : Z * person) : list event :=
  label (fst item) (snd item)
    ++ (if (snd item).(is_seen) then []
        else [is_person_seen_call (fst item) g])
    ++ [box (snd item)
            (if (snd item).(is_seen) then green
             else if (snd item).(is_person_seen) g then green
             else if (snd item).(is_person_close) then red
             else yellow)].

Lemma loop_body_run ps item (self : GazeViewer address) :
  loop_body ps item self
  = (pass self.(_gaze_coordinates) item, self,
     Returned (flagged self.(_gaze_coordinates) (snd item) || ps)).
Proof.
  destruct item as [objectID p].
  unfold loop_body, cv2_rectangle, pass, flagged, box, label; cbn [fst snd].
  destruct (rect p) as [[[x0 y0] x1] y1].
  destruct (is_seen p); [reflexivity|].
  unfold bind, get, call; cbn.
  destruct (is_person_seen p (_gaze_coordinates self)); [reflexivity|].
  destruct (is_person_close p); reflexivity.
Qed.

Lemma for_each_loop_body_run objs ps (self : GazeViewer address) :
  for_each objs loop_body ps self
  = (flat_map (pass self.(_gaze_coordinates)) objs, self,
     Returned (existsb (fun item => flagged self.(_gaze_coordinates) (snd item)) objs
               || ps)).
Proof.
  revert ps. induction objs as [|item objs IH]; intro ps.
  - reflexivity.
  - cbn [for_each flat_map existsb].
    rewrite (bind_returned _ _ _ _ _ _ (loop_body_run ps item self)).
    rewrite IH. cbn [trace store result fst snd].
    rewrite orb_assoc, (orb_comm (existsb _ _)). reflexivity.
Qed.

Lemma tracked_persons_run fr (self : GazeViewer address) :
  tracked_persons fr self
  = (flat_map (pass self.(_gaze_coordinates)) fr.(objects), self,
     Returned (existsb (fun item => flagged self.(_gaze_coordinates) (snd item))
                       fr.(objects))).
Proof.
  unfold tracked_persons. rewrite for_each_loop_body_run, orb_false_r. reflexivity.
Qed.

(** What follows the marker: the window update and the [q] key. *)
Definition display (fr : frame) (self : GazeViewer address) : list event :=
  [imshow "preview"%string; waitKey 1]
    ++ (if Z.land fr.(key) 255 =? 113
        then shutdown_sequence self.(frontend).(_video_receiver_address)
               ++ [destroyAllWindows]
        else []).

Definition overlay (g : gaze) : event :=
  putText (gaze_text g) TEXT_ORG FONT FONT_SCALE TEXT_COLOR TEXT_THICKNESS LINE_AA.

Definition marker (c : point) : list event :=
  [circle c MARKER_SIZE MARKER_COLOR 2;
   circle c SECONDARY_MARKER_SIZE SECONDARY_MARKER_COLOR 2].

(** The handler's run, by the guard, the two [int()] conversions and what
    cv2 makes of the centre. *)
Lemma _handle_video_stream_run fr (self : GazeViewer address) :
  let g := self.(_gaze_coordinates) in
  let head := flat_map (pass g) fr.(objects) ++ [overlay g] in
  _handle_video_stream fr self
  = if math_isnan (fst g) || math_isnan (snd g)
    then (head ++ display fr self, self, Returned tt)
    else match py_int (fst g / 1280 * 640)%float, py_int (snd g / 720 * 360)%float with
         | inr x, inr y =>
             if cv2_point (x, y)
             then (head ++ marker (x, y) ++ display fr self, self, Returned tt)
             else (head ++ [circle (x, y) MARKER_SIZE MARKER_COLOR 2], self,
                   Raised cv2_error)
         | inl e, _ => (head, self, Raised e)
         | inr _, inl e => (head, self, Raised e)
         end.
Proof.
  intros g head. subst head g.
  unfold _handle_video_stream, bind. rewrite tracked_persons_run.
  unfold display, overlay, marker, py_int_, cv2_circle, close, on_frontend, zoom,
    shutdown, shutdown_sequence, bind, get, call, ret, raise, refused.
  destruct self as [[a c] [gx gy]].
  cbn [_gaze_coordinates fst snd frontend _video_receiver_address].
  destruct (math_isnan gx || math_isnan gy); cbn [negb].
  - destruct (Z.land (key fr) 255 =? 113); cbn [app];
      rewrite <- ?app_assoc; reflexivity.
  - destruct (py_int (gx / 1280 * 640)) as [e|x]; [rewrite app_nil_r; reflexivity|].
    destruct (py_int (gy / 720 * 360)) as [e|y]; [rewrite !app_nil_r; reflexivity|].
    destruct (cv2_point (x, y));
      [|cbn [app]; rewrite <- ?app_assoc; reflexivity].
    destruct (Z.land (key fr) 255 =? 113); cbn [app];
      rewrite <- ?app_assoc; reflexivity.
Qed.

Lemma _handle_video_stream_starts fr (self : GazeViewer address) :
  exists rest,
    trace (_handle_video_stream fr self)
    = flat_map (pass self.(_gaze_coordinates)) fr.(objects)
        ++ overlay self.(_gaze_coordinates) :: rest.
Proof.
  pose proof (_handle_video_stream_run fr self) as Hrun. cbv zeta in Hrun.
  rewrite Hrun.
  destruct (math_isnan _ || math_isnan _);
    [|destruct (py_int _) as [e|x];
       [|destruct (py_int _) as [e|y]; [|destruct (cv2_point _)]]];
    cbn [trace fst]; rewrite <- ?app_assoc; cbn [app]; eauto.
Qed.

(** The rectangles a trace draws, in order. *)
Definition rectangles (t : list event) : list event :=
  filter (fun e => match e with rectangle _ _ _ _ => true | _ => false end) t.

Lemma rectangles_app t1 t2 :
  rectangles (t1 ++ t2) = rectangles t1 ++ rectangles t2.
Proof. apply filter_app. Qed.

Lemma rectangles_box p c : rectangles [box p c] = [box p c].
Proof. unfold box. destruct (rect p) as [[[x0 y0] x1] y1]. reflexivity. Qed.

Lemma rectangles_display fr (self : GazeViewer address) :
  rectangles (display fr self) = [].
Proof. unfold display, shutdown_sequence. destruct (_ =? _); reflexivity. Qed.

Lemma rectangles_passes g objs :
  rectangles (flat_map (pass g) objs)
  = map (fun item =>
           box (snd item)
               (if (snd item).(is_seen) then green
                else if (snd item).(is_person_seen) g then green
                else if (snd item).(is_person_close) then red
                else yellow)) objs.
Proof.
  induction objs as [|item objs IH]; [reflexivity|].
  cbn [flat_map map]. rewrite rectangles_app, IH. f_equal.
  unfold pass. rewrite !rectangles_app, rectangles_box.
  destruct (is_seen (snd item)); reflexivity.
Qed.

Lemma rectangles_handler fr (self : GazeViewer address) :
  rectangles (trace (_handle_video_stream fr self))
  = rectangles (flat_map (pass self.(_gaze_coordinates)) fr.(objects)).
Proof.
  pose proof (_handle_video_stream_run fr self) as Hrun. cbv zeta in Hrun.
  rewrite Hrun.
  destruct (math_isnan _ || math_isnan _);
    [|destruct (py_int _) as [e|x];
       [|destruct (py_int _) as [e|y]; [|destruct (cv2_point _)]]];
    cbn [trace fst];
    rewrite ?rectangles_app, ?rectangles_display;
    cbn; rewrite ?app_nil_r; reflexivity.
Qed.

(** C1. In [eyeware.py], whatever else a frame's handling does, the
    rectangles it draws are exactly one for each tracked person, in the
    tracker's order, each on the person's box: with the tuple (255, 0, 0)
    when the person is not marked seen, [is_person_seen] of the stored gaze
    coordinates is false and the person is close; with (0, 255, 0) when the
    person is marked seen or gazed at; with (255, 255, 0) when neither seen
    nor gazed at and not close.  On the frame, whose planes cv2 keeps as
    blue, green, red, the three tuples show as (red, green, blue) =
    (0, 0, 255), (0, 255, 0) and (0, 255, 255): the rectangle of the branch
    the source comments as [#R] is blue, and the far person's is cyan. *)
Theorem tracked_person_rectangle fr (self : GazeViewer address) :
  let g := self.(_gaze_coordinates) in
  rectangles (trace (_handle_video_stream (response := response) fr self))
  = map (fun item =>
           let p := snd item in
           box p (if p.(is_seen) then [0; 255; 0]
                  else if p.(is_person_seen) g then [0; 255; 0]
                  else if p.(is_person_close) then [255; 0; 0]
                  else [255; 255; 0])) fr.(objects)
  /\ shown [255; 0; 0] = (0, 0, 255)
  /\ shown [0; 255; 0] = (0, 255, 0)
  /\ shown [255; 255; 0] = (0, 255, 255).
Proof.
  intro g. split; [|repeat split].
  rewrite rectangles_handler. apply rectangles_passes.
Qed.

(** The colours of the rectangles a trace draws, in order. *)
Definition rectangle_colours (t : list event) : list colour :=
  flat_map (fun e => match e with rectangle _ _ c _ => [c] | _ => [] end) t.

Lemma rectangle_colours_app t1 t2 :
  rectangle_colours (t1 ++ t2) = rectangle_colours t1 ++ rectangle_colours t2.
Proof. apply flat_map_app. Qed.

Lemma rectangle_colours_box p c : rectangle_colours [box p c] = [c].
Proof. unfold box. destruct (rect p) as [[[x0 y0] x1] y1]. reflexivity. Qed.

Lemma rectangle_colours_display fr (self : GazeViewer address) :
  rectangle_colours (display fr self) = [].
Proof. unfold display. destruct (_ =? _); reflexivity. Qed.

(** The three values the handler reads of a person, for the stored gaze. *)
Definition same_answers (g1 g2 : gaze) (i1 i2 : Z * person) : Prop :=
  (snd i1).(is_seen) = (snd i2).(is_seen)
  /\ (snd i1).(is_person_seen) g1 = (snd i2).(is_person_seen) g2
  /\ (snd i1).(is_person_close) = (snd i2).(is_person_close).

(** The colour the loop gives a person's rectangle, by the three values. *)
Definition rectangle_colour (seen gazed close : bool) : colour :=
  if seen then green else if gazed then green else if close then red else yellow.

Lemma rectangle_colours_passes g objs :
  rectangle_colours (flat_map (pass g) objs)
  = map (fun item => rectangle_colour (snd item).(is_seen)
                                      ((snd item).(is_person_seen) g)
                                      (snd item).(is_person_close)) objs.
Proof.
  induction objs as [|item objs IH]; [reflexivity|].
  cbn [flat_map map]. rewrite rectangle_colours_app, IH. f_equal.
  unfold pass, rectangle_colour.
  rewrite !rectangle_colours_app, rectangle_colours_box.
  destruct (is_seen (snd item)); reflexivity.
Qed.

Lemma one_rectangle_per_person g objs :
  List.length (rectangle_colours (flat_map (pass g) objs)) = List.length objs.
Proof.
  induction objs as [|item objs IH]; [reflexivity|].
  cbn [flat_map]. rewrite rectangle_colours_app, List.length_app, IH.
  unfold pass. rewrite !rectangle_colours_app, rectangle_colours_box.
  destruct (is_seen (snd item)); reflexivity.
Qed.

Lemma rectangle_colours_handler fr (self : GazeViewer address) :
  rectangle_colours (trace (_handle_video_stream fr self))
  = rectangle_colours (flat_map (pass self.(_gaze_coordinates)) fr.(objects)).
Proof.
  pose proof (_handle_video_stream_run fr self) as Hrun. cbv zeta in Hrun.
  rewrite Hrun.
  destruct (math_isnan _ || math_isnan _);
    [|destruct (py_int _) as [e|x];
       [|destruct (py_int _) as [e|y]; [|destruct (cv2_point _)]]];
    cbn [trace fst];
    rewrite ?rectangle_colours_app, ?rectangle_colours_display;
    cbn; rewrite ?app_nil_r; reflexivity.
Qed.

(** C7. The colour of a tracked person's rectangle is decided by the three
    values the handler is handed, [is_seen], [is_person_seen] of the
    stored gaze coordinates and [is_person_close], and by nothing else:
    any two tracked persons, at any places of one frame or of two frames
    (with any viewers, gaze coordinates, boxes, identifiers, keys, and any
    other persons around them), that agree on these three values get
    rectangles of the same colour, the rectangles of a frame being one for
    each tracked person, in the tracker's order. *)
Theorem rectangle_colour_from_three_values
        fr1 fr2 (self1 self2 : GazeViewer address) i j item1 item2 :
  nth_error fr1.(objects) i = Some item1 ->
  nth_error fr2.(objects) j = Some item2 ->
  same_answers self1.(_gaze_coordinates) self2.(_gaze_coordinates) item1 item2 ->
  let colours1 :=
    rectangle_colours (trace (_handle_video_stream (response := response) fr1 self1)) in
  let colours2 :=
    rectangle_colours (trace (_handle_video_stream (response := response) fr2 self2)) in
  (exists c, nth_error colours1 i = Some c /\ nth_error colours2 j = Some c)
  /\ List.length colours1 = List.length fr1.(objects)
  /\ List.length colours2 = List.length fr2.(objects).
Proof.
  intros Hi Hj (Hs & Hg & Hc) colours1 colours2. subst colours1 colours2.
  rewrite !rectangle_colours_handler. split; [|split].
  - rewrite !rectangle_colours_passes.
    exists (rectangle_colour (snd item2).(is_seen)
                             ((snd item2).(is_person_seen) self2.(_gaze_coordinates))
                             (snd item2).(is_person_close)).
    split.
    + rewrite nth_error_map, Hi. cbn [option_map]. rewrite Hs, Hg, Hc. reflexivity.
    + rewrite nth_error_map, Hj. reflexivity.
  - apply one_rectangle_per_person.
  - apply one_rectangle_per_person.
Qed.

(** Circles: the loop draws the centroid dots, the display part none. *)
Lemma in_passes_circle g objs c r col th :
  In (circle c r col th) (flat_map (pass g) objs) ->
  exists objectID p,
    In (objectID, p) objs /\ c = p.(centroid)
    /\ r = 4 /\ col = [0; 255; 0] /\ th = -1.
Proof.
  intros Hin. apply in_flat_map in Hin. destruct Hin as ([objectID p] & Hitem & Hin).
  exists objectID, p. split; [exact Hitem|].
  unfold pass, label, box in Hin; cbn [fst snd] in Hin.
  destruct (rect p) as [[[x0 y0] x1] y1].
  rewrite !in_app_iff in Hin. destruct Hin as [Hin | [Hin | Hin]].
  - destruct Hin as [Hin | [Hin | []]]; [discriminate Hin|].
    injection Hin as <- <- <- <-. repeat split; reflexivity.
  - destruct (is_seen p); [destruct Hin|].
    destruct Hin as [Hin | []]; discriminate Hin.
  - destruct Hin as [Hin | []]; discriminate Hin.
Qed.

Lemma in_display_circle fr (self : GazeViewer address) c r col th :
  ~ In (circle c r col th) (display fr self).
Proof.
  unfold display, shutdown_sequence. destruct (_ =? _); cbn; intuition discriminate.
Qed.

Lemma in_passes_call g objectID p objs :
  In (objectID, p) objs -> p.(is_seen) = false ->
  In (is_person_seen_call objectID g) (flat_map (pass g) objs).
Proof.
  intros Hin Hs. apply in_flat_map. exists (objectID, p). split; [exact Hin|].
  unfold pass; cbn [fst snd]. rewrite Hs, !in_app_iff. right; left. left. reflexivity.
Qed.

(** C8. In [eyeware.py], when either stored gaze coordinate is NaN the
    handler returns without drawing either marker circle: the only circles
    of the frame are the centroid dots of the tracked persons (radius 4,
    filled), whose centres are integers.  The coordinate text is still
    drawn from the NaN-holding coordinates, and [is_person_seen] is still
    asked with them for every tracked person not marked seen. *)
Theorem nan_gaze_skips_marker fr (self : GazeViewer address) :
  let g := self.(_gaze_coordinates) in
  math_isnan (fst g) = true \/ math_isnan (snd g) = true ->
  let r := _handle_video_stream (response := response) fr self in
  result r = Returned tt
  /\ (forall c r' col th,
        In (circle c r' col th) (trace r) ->
        exists objectID p,
          In (objectID, p) fr.(objects) /\ c = p.(centroid)
          /\ r' = 4 /\ col = [0; 255; 0] /\ th = -1)
  /\ (forall c,
        ~ In (circle c MARKER_SIZE MARKER_COLOR 2) (trace r)
        /\ ~ In (circle c SECONDARY_MARKER_SIZE SECONDARY_MARKER_COLOR 2) (trace r))
  /\ In (putText (gaze_text g) TEXT_ORG FONT FONT_SCALE TEXT_COLOR TEXT_THICKNESS
                 LINE_AA) (trace r)
  /\ (forall objectID p,
        In (objectID, p) fr.(objects) -> p.(is_seen) = false ->
        In (is_person_seen_call objectID g) (trace r)).
Proof.
  intros g Hnan r. subst r.
  pose proof (_handle_video_stream_run fr self) as Hrun. cbv zeta in Hrun.
  fold g in Hrun. rewrite Hrun.
  assert (Hguard : math_isnan (fst g) || math_isnan (snd g) = true)
    by (destruct Hnan as [-> | ->]; [reflexivity | apply orb_true_r]).
  rewrite Hguard. cbn [trace result fst snd].
  assert (Hcircles : forall c r' col th,
             In (circle c r' col th)
                ((flat_map (pass g) (objects fr) ++ [overlay g]) ++ display fr self) ->
             exists objectID p,
               In (objectID, p) fr.(objects) /\ c = p.(centroid)
               /\ r' = 4 /\ col = [0; 255; 0] /\ th = -1).
  { intros c r' col th Hin. rewrite !in_app_iff in Hin.
    destruct Hin as [[Hin | Hin] | Hin].
    - eapply in_passes_circle; eassumption.
    - destruct Hin as [Hin | []]. discriminate Hin.
    - destruct (in_display_circle _ _ _ _ _ _ Hin). }
  split; [reflexivity|]. split; [exact Hcircles|]. split; [|split].
  - intro c. split; intro Hin; apply Hcircles in Hin;
      destruct Hin as (_ & _ & _ & _ & Hr & _); discriminate Hr.
  - rewrite !in_app_iff. left; right. left. reflexivity.
  - intros objectID p Hin Hs. rewrite !in_app_iff. left; left.
    apply (in_passes_call g objectID p); assumption.
Qed.

(** What comes before the marker draws no circle of thickness 2 and shows
    nothing. *)
Lemma in_head_circle g objs c rad col :
  ~ In (circle (address := address) (response := response) c rad col 2)
       (flat_map (pass g) objs ++ [overlay g]).
Proof.
  intros Hin. rewrite in_app_iff in Hin. destruct Hin as [Hin | Hin].
  - apply in_passes_circle in Hin.
    destruct Hin as (_ & _ & _ & _ & _ & _ & Hth). discriminate Hth.
  - destruct Hin as [Hin | []]. discriminate Hin.
Qed.

Lemma in_head_imshow g objs winname :
  ~ In (imshow (address := address) (response := response) winname)
       (flat_map (pass g) objs ++ [overlay g]).
Proof.
  intros Hin. apply in_app_or in Hin. destruct Hin as [Hin | Hin].
  - apply in_flat_map in Hin. destruct Hin as ([objectID p] & _ & Hin).
    unfold pass, label, box in Hin; cbn [fst snd] in Hin.
    destruct (rect p) as [[[x0 y0] x1] y1], (is_seen p);
      cbn in Hin; intuition discriminate.
  - destruct Hin as [Hin | []]. discriminate Hin.
Qed.

(** C9 (as amended). In [eyeware.py], for stored gaze coordinates (x, y)
    that are both not NaN, whatever the frame (its size, its persons, the
    key): when [int()] converts both rescaled values, x/1280*640 and
    y/720*360 in binary64 arithmetic, and both truncations are C ints, the
    handler returns with the two marker circles drawn at the point of the
    two truncations and nowhere else; when both are converted but a
    truncation is not a C int, cv2 refuses the first marker circle, the
    handler's last call, and the handler leaves with [cv2.error], nothing
    drawn of the marker and nothing shown; when a rescaled value is
    infinite, [int()] raises and the handler leaves before any marker
    circle, nothing shown either. *)
Theorem marker_at_rescaled_gaze fr (self : GazeViewer address) :
  let g := self.(_gaze_coordinates) in
  math_isnan (fst g) = false -> math_isnan (snd g) = false ->
  let r := _handle_video_stream (response := response) fr self in
  let thick2 c := exists rad col, In (circle c rad col 2) (trace r) in
  match py_int (fst g / 1280 * 640)%float, py_int (snd g / 720 * 360)%float with
  | inr x, inr y =>
      if cv2_point (x, y)
      then result r = Returned tt
           /\ In (circle (x, y) MARKER_SIZE MARKER_COLOR 2) (trace r)
           /\ In (circle (x, y) SECONDARY_MARKER_SIZE SECONDARY_MARKER_COLOR 2)
                 (trace r)
           /\ (forall c, thick2 c -> c = (x, y))
      else result r = Raised cv2_error
           /\ (exists before,
                 trace r = before ++ [circle (x, y) MARKER_SIZE MARKER_COLOR 2]
                 /\ forall c rad col, ~ In (circle c rad col 2) before)
           /\ (forall winname, ~ In (imshow winname) (trace r))
  | inl e, _ | inr _, inl e =>
      result r = Raised e
      /\ (forall c, ~ thick2 c)
      /\ (forall winname, ~ In (imshow winname) (trace r))
  end.
Proof.
  intros g Hx Hy r thick2. subst thick2 r.
  pose proof (_handle_video_stream_run fr self) as Hrun. cbv zeta in Hrun.
  fold g in Hrun. rewrite Hrun, Hx, Hy. cbn [orb].
  pose proof (in_head_circle g (objects fr)) as Hhead.
  destruct (py_int (fst g / 1280 * 640)) as [e|x].
  { cbn [trace result fst snd]. split; [reflexivity|]. split.
    - intros c (rad & col & Hin). exact (Hhead _ _ _ Hin).
    - intros winname. apply in_head_imshow. }
  destruct (py_int (snd g / 720 * 360)) as [e|y].
  { cbn [trace result fst snd]. split; [reflexivity|]. split.
    - intros c (rad & col & Hin). exact (Hhead _ _ _ Hin).
    - intros winname. apply in_head_imshow. }
  destruct (cv2_point (x, y)).
  - cbn [trace result fst snd]. split; [reflexivity|]. split; [|split].
    + rewrite !in_app_iff. right; left. left. reflexivity.
    + rewrite !in_app_iff. right; left. right; left. reflexivity.
    + intros c (rad & col & Hin).
      apply in_app_or in Hin. destruct Hin as [Hin | Hin];
        [|apply in_app_or in Hin; destruct Hin as [Hin | Hin]].
      * destruct (Hhead _ _ _ Hin).
      * destruct Hin as [Hin | [Hin | []]]; injection Hin as <- _ _; reflexivity.
      * destruct (in_display_circle _ _ _ _ _ _ Hin).
  - cbn [trace result fst snd]. split; [reflexivity|]. split.
    + eexists. split; [reflexivity|]. exact Hhead.
    + intros winname Hin. apply in_app_or in Hin. destruct Hin as [Hin | Hin].
      * exact (in_head_imshow _ _ _ Hin).
      * destruct Hin as [Hin | []]. discriminate Hin.
Qed.

(** C3 (as amended). In [eyeware.py], for every received frame: when the
    stored gaze coordinates are both not NaN, [int()] converts both
    rescaled values and both truncations are C ints, the handler draws the
    gaze marker, its two circles centred at the rescaled gaze point, right
    before it shows the frame, nothing being shown earlier in the handler;
    when a stored coordinate is NaN, the handler draws no marker circle at
    all and still shows the frame. *)
Theorem gaze_marker_before_display fr (self : GazeViewer address) :
  let g := self.(_gaze_coordinates) in
  let r := _handle_video_stream (response := response) fr self in
  (forall x y,
     math_isnan (fst g) = false -> math_isnan (snd g) = false ->
     py_int (fst g / 1280 * 640)%float = inr x ->
     py_int (snd g / 720 * 360)%float = inr y ->
     cv2_point (x, y) = true ->
     result r = Returned tt
     /\ exists before after,
         trace r
         = before
             ++ [circle (x, y) MARKER_SIZE MARKER_COLOR 2;
                 circle (x, y) SECONDARY_MARKER_SIZE SECONDARY_MARKER_COLOR 2;
                 imshow "preview"%string]
             ++ after
         /\ forall winname, ~ In (imshow winname) before)
  /\ (math_isnan (fst g) = true \/ math_isnan (snd g) = true ->
      result r = Returned tt
      /\ (forall c rad col, ~ In (circle c rad col 2) (trace r))
      /\ exists before after,
          trace r = before ++ [imshow "preview"%string] ++ after
          /\ forall winname, ~ In (imshow winname) before).
Proof.
  intros g r. subst r.
  pose proof (_handle_video_stream_run fr self) as Hrun. cbv zeta in Hrun.
  fold g in Hrun. rewrite Hrun. clear Hrun. split.
  - intros x y Hx Hy Hix Hiy Hfit. rewrite Hx, Hy, Hix, Hiy, Hfit.
    cbn [orb trace result fst snd]. split; [reflexivity|].
    exists (flat_map (pass g) (objects fr) ++ [overlay g]).
    exists (waitKey 1
              :: (if Z.land fr.(key) 255 =? 113
                  then shutdown_sequence self.(frontend).(_video_receiver_address)
                         ++ [destroyAllWindows]
                  else [])).
    split; [reflexivity|]. intros winname. apply in_head_imshow.
  - intros Hnan.
    assert (Hguard : math_isnan (fst g) || math_isnan (snd g) = true)
      by (destruct Hnan as [-> | ->]; [reflexivity | apply orb_true_r]).
    rewrite Hguard. cbn [trace result fst snd]. split; [reflexivity|]. split.
    + intros c rad col Hin. apply in_app_or in Hin. destruct Hin as [Hin | Hin].
      * exact (in_head_circle _ _ _ _ _ Hin).
      * exact (in_display_circle _ _ _ _ _ _ Hin).
    + exists (flat_map (pass g) (objects fr) ++ [overlay g]).
      exists (waitKey 1
                :: (if Z.land fr.(key) 255 =? 113
                    then shutdown_sequence self.(frontend).(_video_receiver_address)
                           ++ [destroyAllWindows]
                    else [])).
      split; [reflexivity|]. intros winname. apply in_head_imshow.
Qed.
End EyewareFrames.

(** ** The frame handler of [eyetracking/pyside.py] *)

Section PysideFrames.
Context {address response : Type} `{Truthy response}.
Abbreviation event := (event address response).
Import Pyside.

Lemma pyside_handle_video_stream_run fr (self : GazeViewer address) :
  _handle_video_stream (response := response) fr self
  = ([putText (gaze_text self.(_gaze_coordinates)) TEXT_ORG FONT FONT_SCALE
              TEXT_COLOR TEXT_THICKNESS LINE_AA;
      imshow "preview"%string; waitKey 1]
       ++ (if Z.land fr.(key) 255 =? 113
           then shutdown_sequence self.(frontend).(_video_receiver_address)
                  ++ [destroyAllWindows]
           else [])
       ++ [print_gaze self.(_gaze_coordinates)],
     self, Returned tt).
Proof.
  unfold _handle_video_stream, close, on_frontend, zoom, shutdown, shutdown_sequence,
    bind, get, call, ret.
  destruct self as [[a c] g]; cbn [_gaze_coordinates frontend _video_receiver_address].
  destruct (Z.land (key fr) 255 =? 113); reflexivity.
Qed.

(** The handler of [eyetracking/pyside.py] draws the coordinate text and
    no circle at all. *)
Lemma pyside_draws_no_circle fr (self : GazeViewer address) c r col th :
  ~ In (circle c r col th) (trace (_handle_video_stream (response := response) fr self)).
Proof.
  rewrite pyside_handle_video_stream_run. unfold shutdown_sequence.
  destruct (Z.land (key fr) 255 =? 113); cbn; intuition discriminate.
Qed.
End PysideFrames.

(** ** Runs of the scripts *)

(** The coordinates of the latest packet among [ps], [g] when there is none. *)
Fixpoint latest (g : gaze) (ps : list (option gaze)) : gaze :=
  match ps with
  | [] => g
  | Some g' :: ps' => latest g' ps'
  | None :: ps' => latest g ps'
  end.

Section Runs.
Context {address response : Type} `{Truthy response}.
Abbreviation event := (event address response).

Definition pyside_packet (i : Pyside.input response) : option gaze :=
  match i with
  | Pyside.gaze_in_image x y => Some (x, y)
  | _ => None
  end.

Definition eyeware_packet (i : Eyeware.input response) : option gaze :=
  match i with
  | Eyeware.gaze_in_image x y => Some (x, y)
  | _ => None
  end.

Lemma pyside_dispatch_gaze (i : Pyside.input response) (self : Pyside.GazeViewer address) :
  Pyside._gaze_coordinates (store (Pyside.dispatch i self))
  = latest (Pyside._gaze_coordinates self) [pyside_packet i].
Proof.
  destruct i as [error | error | x y | fr]; cbn [Pyside.dispatch pyside_packet latest].
  - unfold Pyside.on_frontend. rewrite zoom_run. reflexivity.
  - unfold Pyside.on_frontend. rewrite zoom_run. reflexivity.
  - reflexivity.
  - rewrite pyside_handle_video_stream_run. reflexivity.
Qed.

Lemma pyside_deliver_gaze (ins : list (Pyside.input response)) :
  forall self : Pyside.GazeViewer address,
    result (Pyside.deliver ins self) = Returned tt ->
    Pyside._gaze_coordinates (store (Pyside.deliver ins self))
    = latest (Pyside._gaze_coordinates self) (map pyside_packet ins).
Proof.
  induction ins as [|i ins IH]; intros self Hr; [reflexivity|].
  cbn [Pyside.deliver map] in *.
  apply bind_inv_returned in Hr. destruct Hr as (u & _ & Hk & ->).
  cbn [store fst snd]. rewrite (IH _ Hk), pyside_dispatch_gaze.
  cbn [latest]. destruct (pyside_packet i); reflexivity.
Qed.

Lemma eyeware_handle_video_stream_store fr (self : Eyeware.GazeViewer address) :
  store (Eyeware._handle_video_stream (response := response) fr self) = self.
Proof.
  pose proof (_handle_video_stream_run (response := response) fr self) as Hrun. cbv zeta in Hrun.
  rewrite Hrun.
  destruct (math_isnan _ || math_isnan _);
    [|destruct (py_int _) as [e|x];
       [|destruct (py_int _) as [e|y]; [|destruct (cv2_point _)]]];
    reflexivity.
Qed.

Lemma eyeware_dispatch_gaze (i : Eyeware.input response) (s : Eyeware.script address) :
  Eyeware._gaze_coordinates (Eyeware.main_window (store (Eyeware.dispatch i s)))
  = latest (Eyeware._gaze_coordinates (Eyeware.main_window s)) [eyeware_packet i].
Proof.
  unfold Eyeware.dispatch, Eyeware.on_main_window. rewrite zoom_run.
  cbn [store fst snd Eyeware.main_window].
  destruct i as [error | error | x y | fr]; cbn [eyeware_packet latest].
  - unfold Eyeware.on_frontend. rewrite zoom_run. reflexivity.
  - unfold Eyeware.on_frontend. rewrite zoom_run. reflexivity.
  - reflexivity.
  - rewrite eyeware_handle_video_stream_store. reflexivity.
Qed.

Lemma eyeware_deliver_gaze (ins : list (Eyeware.input response)) :
  forall s : Eyeware.script address,
    result (Eyeware.deliver ins s) = Returned tt ->
    Eyeware._gaze_coordinates (Eyeware.main_window (store (Eyeware.deliver ins s)))
    = latest (Eyeware._gaze_coordinates (Eyeware.main_window s))
             (map eyeware_packet ins).
Proof.
  induction ins as [|i ins IH]; intros s Hr; [reflexivity|].
  cbn [Eyeware.deliver map] in *.
  apply bind_inv_returned in Hr. destruct Hr as (u & _ & Hk & ->).
  cbn [store fst snd]. rewrite (IH _ Hk), eyeware_dispatch_gaze.
  cbn [latest]. destruct (eyeware_packet i); reflexivity.
Qed.

(** C5. In both scripts a gaze-in-image packet overwrites the stored
    coordinates with its (gaze_img_x, gaze_img_y); so after any callbacks
    delivered to a freshly started script, the coordinates it holds, and
    writes on the next frame, are those of the latest packet delivered,
    and (0, 0) when there was none. *)
Theorem stored_gaze_is_latest_packet (a : address) :
  (forall x y (self : Pyside.GazeViewer address),
      Pyside._gaze_coordinates
        (store (Pyside._handle_gaze_in_image_stream (response := response) x y self))
      = (x, y))
  /\ (forall x y (self : Eyeware.GazeViewer address),
        Eyeware._gaze_coordinates
          (store (Eyeware._handle_gaze_in_image_stream (response := response) x y self))
        = (x, y))
  /\ (forall (ins : list (Pyside.input response)) fr,
        let r := Pyside.deliver ins (snd (Pyside.GazeViewer__init__ (response := response) a)) in
        let g := latest (0%float, 0%float) (map pyside_packet ins) in
        result r = Returned tt ->
        Pyside._gaze_coordinates (store r) = g
        /\ In (putText (gaze_text g) Pyside.TEXT_ORG Pyside.FONT Pyside.FONT_SCALE
                       Pyside.TEXT_COLOR Pyside.TEXT_THICKNESS LINE_AA)
              (trace (Pyside._handle_video_stream (response := response) fr (store r))))
  /\ (forall (ins : list (Eyeware.input response)) fr,
        let r := Eyeware.deliver ins (store (Eyeware.main (response := response) a)) in
        let g := latest (0%float, 0%float) (map eyeware_packet ins) in
        result r = Returned tt ->
        Eyeware._gaze_coordinates (Eyeware.main_window (store r)) = g
        /\ In (putText (gaze_text g) Eyeware.TEXT_ORG Eyeware.FONT Eyeware.FONT_SCALE
                       Eyeware.TEXT_COLOR Eyeware.TEXT_THICKNESS LINE_AA)
              (trace (Eyeware._handle_video_stream (response := response) fr
                        (Eyeware.main_window (store r))))).
Proof.
  split; [reflexivity|]. split; [reflexivity|]. split.
  - intros ins fr r g Hr. subst r g.
    pose proof (pyside_deliver_gaze ins _ Hr) as Hg.
    split; [exact Hg|].
    rewrite pyside_handle_video_stream_run, Hg. left. reflexivity.
  - intros ins fr r g Hr. subst r g.
    pose proof (eyeware_deliver_gaze ins _ Hr) as Hg.
    split; [exact Hg|].
    destruct (_handle_video_stream_starts (response := response) fr (Eyeware.main_window
                (store (Eyeware.deliver ins (store (Eyeware.main (response := response) a)))))) as [rest ->].
    rewrite Hg. apply in_or_app. right. left. reflexivity.
Qed.
End Runs.

(** ** The warning sound of [eyeware.py] *)

Section WarningSound.
Context {address response : Type} `{Truthy response}.
Abbreviation event := (event address response).

(** The one call that plays the sound: [p.start()] in [play_warning_sound]. *)
Definition starts_sound (e : event) : Prop :=
  exists target arg, e = Process_start target arg.

Ltac quiet :=
  repeat first
    [ solve [auto with prog]
    | apply never_zoom
    | apply never_for_each; intros
    | apply never_bind; [|intros]
    | apply never_call; intros (? & ? & ?); discriminate
    | apply never_refused; intros (? & ? & ?); discriminate
    | match goal with
      | |- never _ (match ?x with _ => _ end) => destruct x
      end ].

Lemma dispatch_never_starts_sound (i : Eyeware.input response) :
  never starts_sound (Eyeware.dispatch (address := address) i).
Proof.
  unfold Eyeware.dispatch, Eyeware.on_main_window. apply never_zoom.
  destruct i as [error | error | x y | fr].
  - unfold Eyeware.on_frontend, Eyeware._handle_connect_response,
      Eyeware.set_connected. quiet.
  - unfold Eyeware.on_frontend, Eyeware._handle_camera_start_response,
      Eyeware.shutdown. quiet.
  - unfold Eyeware._handle_gaze_in_image_stream. quiet.
  - unfold Eyeware._handle_video_stream, Eyeware.tracked_persons,
      Eyeware.close, Eyeware.on_frontend, Eyeware.shutdown, Eyeware.py_int_,
      Eyeware.cv2_circle.
    quiet; unfold Eyeware.loop_body, Eyeware.cv2_rectangle; quiet.
Qed.

Lemma dispatch_keeps_play_sound (i : Eyeware.input response) :
  keeps Eyeware.play_sound (Eyeware.dispatch (address := address) i).
Proof.
  unfold Eyeware.dispatch, Eyeware.on_main_window.
  apply keeps_zoom. reflexivity.
Qed.

(** No callback, whatever it is handed, plays the sound or changes the
    module's [play_sound]. *)
Lemma deliver_never_starts_sound (ins : list (Eyeware.input response)) :
  never starts_sound (Eyeware.deliver (address := address) ins)
  /\ keeps Eyeware.play_sound (Eyeware.deliver (address := address) ins).
Proof.
  induction ins as [|i ins [IHn IHk]]; cbn [Eyeware.deliver].
  - split; auto with prog.
  - pose proof (dispatch_never_starts_sound i).
    pose proof (dispatch_keeps_play_sound i).
    split; auto with prog.
Qed.
End WarningSound.

(** ** The scripts at concrete inputs

    The receiver's address is a string here and a response an integer
    code, zero for success. *)

Definition receiver : string := "127.0.0.1:5555".

Definition pyside_viewer (g : gaze) : Pyside.GazeViewer string :=
  {| Pyside.frontend := {| Pyside._video_receiver_address := receiver;
                           Pyside.connected := true |};
     Pyside._gaze_coordinates := g |}.

Definition eyeware_viewer (g : gaze) : Eyeware.GazeViewer string :=
  {| Eyeware.frontend := {| Eyeware._video_receiver_address := receiver;
                            Eyeware.connected := true |};
     Eyeware._gaze_coordinates := g |}.

(** Four tracked persons, one for each way through the handler's branches. *)
Definition close_unseen : person :=
  {| centroid := (100, 120); rect := (80, 60, 120, 180);
     is_seen := false; is_person_close := true;
     is_person_seen := fun _ => false |}.

Definition far_unseen : person :=
  {| centroid := (300, 100); rect := (290, 80, 310, 120);
     is_seen := false; is_person_close := false;
     is_person_seen := fun _ => false |}.

Definition marked_seen : person :=
  {| centroid := (500, 200); rect := (480, 150, 520, 250);
     is_seen := true; is_person_close := true;
     is_person_seen := fun _ => false |}.

Definition gazed_at : person :=
  {| centroid := (200, 150); rect := (180, 100, 220, 200);
     is_seen := false; is_person_close := true;
     is_person_seen := fun g => PrimFloat.ltb 300 (fst g) |}.

Definition street : Eyeware.frame :=
  {| Eyeware.width := 1280; Eyeware.height := 720;
     Eyeware.objects := [(0, close_unseen); (1, far_unseen);
                         (2, marked_seen); (3, gazed_at)];
     Eyeware.key := -1 |}.

Definition empty_street : Eyeware.frame :=
  {| Eyeware.width := 1280; Eyeware.height := 720;
     Eyeware.objects := []; Eyeware.key := -1 |}.

Definition plain : Pyside.frame :=
  {| Pyside.width := 1280; Pyside.height := 720; Pyside.key := -1 |}.

Lemma tracked_person_rectangle_witness :
  rectangles (trace (Eyeware._handle_video_stream (response := Z) street
                       (eyeware_viewer (400, 300)%float)))
  = [rectangle (80, 60) (120, 180) [255; 0; 0] 2;
     rectangle (290, 80) (310, 120) [255; 255; 0] 2;
     rectangle (480, 150) (520, 250) [0; 255; 0] 2;
     rectangle (180, 100) (220, 200) [0; 255; 0] 2]
  /\ shown [255; 0; 0] = (0, 0, 255).
Proof.
  pose proof (tracked_person_rectangle (response := Z) street
                (eyeware_viewer (400, 300)%float)) as Hr.
  cbv zeta in Hr. destruct Hr as (Hr & Hb & _).
  split; [rewrite Hr; reflexivity | exact Hb].
Defined.

Lemma connect_response_handling_witness :
  Pyside._handle_connect_response (0 : Z)
    {| Pyside._video_receiver_address := receiver; Pyside.connected := false |}
  = ([set_stream_control GAZE_IN_IMAGE 125 cb_lambda_none;
      start_camera_capture 1 MEDIUM false cb_handle_camera_start_response;
      start_log_session BASIC cb_lambda_none],
     {| Pyside._video_receiver_address := receiver; Pyside.connected := true |},
     Returned tt)
  /\ Eyeware._handle_connect_response (7 : Z)
       {| Eyeware._video_receiver_address := receiver; Eyeware.connected := false |}
     = ([], {| Eyeware._video_receiver_address := receiver;
               Eyeware.connected := false |},
        Returned tt).
Proof.
  split.
  - exact (proj1 (proj1 (connect_response_handling (0 : Z) receiver false) eq_refl)).
  - exact (proj2 (proj2 (connect_response_handling (7 : Z) receiver false) eq_refl)).
Defined.

Lemma camera_start_response_handling_witness :
  Eyeware._handle_camera_start_response (7 : Z)
    {| Eyeware._video_receiver_address := receiver; Eyeware.connected := true |}
  = ([print_camera_start_error 7;
      stop_video_stream receiver cb_lambda_none;
      stop_camera_capture cb_lambda_none;
      stop_log_session cb_lambda_none;
      api_shutdown],
     {| Eyeware._video_receiver_address := receiver; Eyeware.connected := true |},
     Raised SystemExit)
  /\ Pyside._handle_camera_start_response (0 : Z)
       {| Pyside._video_receiver_address := receiver; Pyside.connected := true |}
     = ([start_video_stream receiver cb_lambda_none],
        {| Pyside._video_receiver_address := receiver; Pyside.connected := true |},
        Returned tt).
Proof.
  split.
  - exact (proj2 (proj1 (camera_start_response_handling (7 : Z) receiver true) eq_refl)).
  - exact (proj1 (proj1 (proj2 (camera_start_response_handling (0 : Z) receiver true))
                    eq_refl)).
Defined.

(** Another close person nobody looked at: another box, another tracker id. *)
Definition close_unseen' : person :=
  {| centroid := (40, 50); rect := (30, 20, 50, 80);
     is_seen := false; is_person_close := true;
     is_person_seen := fun g => PrimFloat.ltb 300 (fst g) |}.

(** Other persons around the second one, and another frame size and key. *)
Definition crowd : Eyeware.frame :=
  {| Eyeware.width := 640; Eyeware.height := 480;
     Eyeware.objects := [(5, marked_seen); (6, far_unseen); (7, close_unseen')];
     Eyeware.key := 113 |}.

Lemma rectangle_colour_from_three_values_witness :
  exists c,
    nth_error (rectangle_colours
                 (trace (Eyeware._handle_video_stream (response := Z) street
                           (eyeware_viewer (400, 300)%float)))) 0
    = Some c
    /\ nth_error (rectangle_colours
                    (trace (Eyeware._handle_video_stream (response := Z) crowd
                              (eyeware_viewer (10, 20)%float)))) 2
       = Some c.
Proof.
  exact (proj1 (rectangle_colour_from_three_values (response := Z)
                  street crowd
                  (eyeware_viewer (400, 300)%float) (eyeware_viewer (10, 20)%float)
                  0 2 (0, close_unseen) (7, close_unseen')
                  eq_refl eq_refl (conj eq_refl (conj eq_refl eq_refl)))).
Defined.

Lemma nan_gaze_skips_marker_witness :
  (math_isnan nan = true \/ math_isnan 300 = true)
  /\ result (Eyeware._handle_video_stream (response := Z) street
               (eyeware_viewer (nan, 300%float)))
     = Returned tt
  /\ (forall c,
        ~ In (circle c Eyeware.MARKER_SIZE Eyeware.MARKER_COLOR 2)
             (trace (Eyeware._handle_video_stream (response := Z) street
                       (eyeware_viewer (nan, 300%float))))
        /\ ~ In (circle c Eyeware.SECONDARY_MARKER_SIZE Eyeware.SECONDARY_MARKER_COLOR 2)
                (trace (Eyeware._handle_video_stream (response := Z) street
                          (eyeware_viewer (nan, 300%float)))))
  /\ In (putText (gaze_text (nan, 300%float)) (50, 50) FONT_HERSHEY_SIMPLEX 0.5
                 [0; 0; 255] 2 LINE_AA)
        (trace (Eyeware._handle_video_stream (response := Z) street
                  (eyeware_viewer (nan, 300%float))))
  /\ In (is_person_seen_call 0 (nan, 300%float))
        (trace (Eyeware._handle_video_stream (response := Z) street
                  (eyeware_viewer (nan, 300%float)))).
Proof.
  split; [left; reflexivity|].
  destruct (nan_gaze_skips_marker (response := Z) street
              (eyeware_viewer (nan, 300%float)) (or_introl eq_refl))
    as (Hr & _ & Hm & Ht & Hc).
  split; [exact Hr|]. split; [exact Hm|]. split; [exact Ht|].
  apply (Hc 0 close_unseen); [simpl; auto | reflexivity].
Defined.

Lemma marker_at_rescaled_gaze_witness :
  (math_isnan 100 = false /\ math_isnan 26 = false
   /\ py_int (100 / 1280 * 640)%float = inr 50
   /\ py_int (26 / 720 * 360)%float = inr 12
   /\ cv2_point (50, 12) = true
   /\ In (circle (50, 12) 5 [0; 250; 50] 2)
         (trace (Eyeware._handle_video_stream (response := Z) street
                   (eyeware_viewer (100, 26)%float)))
   /\ In (circle (50, 12) 20 [250; 0; 0; 64] 2)
         (trace (Eyeware._handle_video_stream (response := Z) street
                   (eyeware_viewer (100, 26)%float))))
  /\ (math_isnan 4294967296 = false /\ math_isnan 300 = false
      /\ py_int (4294967296 / 1280 * 640)%float = inr 2147483648
      /\ py_int (300 / 720 * 360)%float = inr 150
      /\ cv2_point (2147483648, 150) = false
      /\ result (Eyeware._handle_video_stream (response := Z) street
                   (eyeware_viewer (4294967296, 300)%float))
         = Raised cv2_error).
Proof.
  split.
  - repeat (split; [reflexivity|]).
    pose proof (marker_at_rescaled_gaze (response := Z) street
                  (eyeware_viewer (100, 26)%float) eq_refl eq_refl) as Hm.
    cbv zeta in Hm.
    change (py_int (fst (Eyeware._gaze_coordinates (eyeware_viewer (100, 26)%float))
                    / 1280 * 640)%float) with (@inr exn Z 50) in Hm.
    change (py_int (snd (Eyeware._gaze_coordinates (eyeware_viewer (100, 26)%float))
                    / 720 * 360)%float) with (@inr exn Z 12) in Hm.
    change (cv2_point (50, 12)) with true in Hm. cbv iota in Hm.
    destruct Hm as (_ & H1 & H2 & _). split; [exact H1 | exact H2].
  - repeat (split; [reflexivity|]).
    pose proof (marker_at_rescaled_gaze (response := Z) street
                  (eyeware_viewer (4294967296, 300)%float) eq_refl eq_refl) as Hm.
    cbv zeta in Hm.
    change (py_int (fst (Eyeware._gaze_coordinates
                           (eyeware_viewer (4294967296, 300)%float))
                    / 1280 * 640)%float) with (@inr exn Z 2147483648) in Hm.
    change (py_int (snd (Eyeware._gaze_coordinates
                           (eyeware_viewer (4294967296, 300)%float))
                    / 720 * 360)%float) with (@inr exn Z 150) in Hm.
    change (cv2_point (2147483648, 150)) with false in Hm. cbv iota in Hm.
    exact (proj1 Hm).
Defined.

Lemma gaze_marker_before_display_witness :
  (exists before after,
     trace (Eyeware._handle_video_stream (response := Z) street
              (eyeware_viewer (100, 26)%float))
     = before
         ++ [circle (50, 12) 5 [0; 250; 50] 2;
             circle (50, 12) 20 [250; 0; 0; 64] 2;
             imshow "preview"%string]
         ++ after
     /\ forall winname, ~ In (imshow winname) before)
  /\ (forall c rad col,
        ~ In (circle c rad col 2)
             (trace (Eyeware._handle_video_stream (response := Z) street
                       (eyeware_viewer (nan, 300%float))))).
Proof.
  split.
  - exact (proj2 (proj1 (gaze_marker_before_display (response := Z) street
                           (eyeware_viewer (100, 26)%float))
                        50 12 eq_refl eq_refl eq_refl eq_refl eq_refl)).
  - exact (proj1 (proj2 (proj2 (gaze_marker_before_display (response := Z) street
                                  (eyeware_viewer (nan, 300%float)))
                               (or_introl eq_refl)))).
Defined.

Lemma stored_gaze_is_latest_packet_witness :
  Eyeware._gaze_coordinates
    (Eyeware.main_window
       (store (Eyeware.deliver
                 [Eyeware.connect_response (0 : Z);
                  Eyeware.gaze_in_image 1 2;
                  Eyeware.video_frame street;
                  Eyeware.gaze_in_image 640 360]
                 (store (Eyeware.main (response := Z) receiver)))))
  = (640, 360)%float
  /\ Pyside._gaze_coordinates
       (store (Pyside.deliver
                 [Pyside.video_frame plain;
                  Pyside.connect_response (0 : Z)]
                 (snd (Pyside.GazeViewer__init__ (response := Z) receiver))))
     = (0, 0)%float.
Proof.
  destruct (stored_gaze_is_latest_packet (response := Z) receiver)
    as (_ & _ & Hpyside & Heyeware).
  split.
  - exact (proj1 (Heyeware
                    [Eyeware.connect_response (0 : Z);
                     Eyeware.gaze_in_image 1 2;
                     Eyeware.video_frame street;
                     Eyeware.gaze_in_image 640 360]
                    empty_street eq_refl)).
  - exact (proj1 (Hpyside
                    [Pyside.video_frame plain; Pyside.connect_response (0 : Z)]
                    plain eq_refl)).
Defined.

(** A frame with no tracked person and a NaN gaze coordinate in
    [eyeware.py], and a frame in [eyetracking/pyside.py]: all that either
    handler does is write the coordinate text and show the frame (the
    latter also prints the coordinates); no marker is drawn. *)
Lemma gaze_marker_not_always_drawn :
  trace (Eyeware._handle_video_stream (response := Z) empty_street
           (eyeware_viewer (nan, 300%float)))
  = [putText (gaze_text (nan, 300%float)) (50, 50) FONT_HERSHEY_SIMPLEX 0.5
             [0; 0; 255] 2 LINE_AA;
     imshow "preview"%string; waitKey 1]
  /\ trace (Pyside._handle_video_stream (response := Z) plain
              (pyside_viewer (640, 360)%float))
     = [putText (gaze_text (640, 360)%float) (50, 50) FONT_HERSHEY_SIMPLEX 1
                [0; 0; 255] 2 LINE_AA;
        imshow "preview"%string; waitKey 1;
        print_gaze (640, 360)%float].
Proof. split; reflexivity. Qed.

(** Two gaze pairs without a NaN in [eyeware.py].  With an infinite x the
    handler raises [OverflowError] after the coordinate text and draws no
    marker.  With y = 26 the marker's y is 12, while the half of 26,
    truncated, is 13: 26/720*360 is 12.999999999999998 in binary64. *)
Lemma marker_not_at_half_of_gaze :
  (math_isnan infinity = false /\ math_isnan 300 = false
   /\ Eyeware._handle_video_stream (response := Z) empty_street
        (eyeware_viewer (infinity, 300%float))
      = ([putText (gaze_text (infinity, 300%float)) (50, 50) FONT_HERSHEY_SIMPLEX 0.5
                  [0; 0; 255] 2 LINE_AA],
         eyeware_viewer (infinity, 300%float),
         Raised OverflowError))
  /\ (math_isnan 100 = false /\ math_isnan 26 = false
      /\ py_int (26 / 2)%float = inr 13
      /\ trace (Eyeware._handle_video_stream (response := Z) empty_street
                  (eyeware_viewer (100, 26)%float))
         = [putText (gaze_text (100, 26)%float) (50, 50) FONT_HERSHEY_SIMPLEX 0.5
                    [0; 0; 255] 2 LINE_AA;
            circle (50, 12) 5 [0; 250; 50] 2;
            circle (50, 12) 20 [250; 0; 0; 64] 2;
            imshow "preview"%string; waitKey 1]).
Proof. repeat split; reflexivity. Qed.

Definition one_close_unseen : Eyeware.frame :=
  {| Eyeware.width := 1280; Eyeware.height := 720;
     Eyeware.objects := [(0, close_unseen)];
     Eyeware.key := -1 |}.

(** C2. [eyeware.py] started, then handed a gaze packet and a frame whose
    one tracked person is close, not marked seen and not gazed at: the
    handler draws the (255, 0, 0) rectangle and its own local [play_sound] ends
    [True], but the module's [play_sound] is still [False], no call of the
    run starts the sound process (the one call of [play_warning_sound], in
    [main] before any frame, called [terminate] on it), and
    [play_warning_sound] called after the frame would call [terminate]
    again. *)
Theorem close_unseen_person_raises_no_alert :
  result (Eyeware.deliver
            [Eyeware.gaze_in_image 640 360; Eyeware.video_frame one_close_unseen]
            (store (Eyeware.main (response := Z) receiver)))
  = Returned tt
  /\ In (rectangle (80, 60) (120, 180) [255; 0; 0] 2)
        (trace (Eyeware.deliver
                  [Eyeware.gaze_in_image 640 360; Eyeware.video_frame one_close_unseen]
                  (store (Eyeware.main (response := Z) receiver))))
  /\ result (Eyeware.tracked_persons (response := Z) one_close_unseen
               (eyeware_viewer (640, 360)%float))
     = Returned true
  /\ Eyeware.play_sound
       (store (Eyeware.deliver
                 [Eyeware.gaze_in_image 640 360; Eyeware.video_frame one_close_unseen]
                 (store (Eyeware.main (response := Z) receiver))))
     = false
  /\ Forall (fun e => ~ starts_sound e)
            (trace (Eyeware.main (response := Z) receiver)
               ++ trace (Eyeware.deliver
                           [Eyeware.gaze_in_image 640 360;
                            Eyeware.video_frame one_close_unseen]
                           (store (Eyeware.main (response := Z) receiver))))
  /\ trace (Eyeware.play_warning_sound
              (store (Eyeware.deliver
                        [Eyeware.gaze_in_image 640 360;
                         Eyeware.video_frame one_close_unseen]
                        (store (Eyeware.main (response := Z) receiver)))))
     = [Process_terminate (address := string) (response := Z)
          "playsound"%string "/sound/soundeffect.mp3"%string].
Proof.
  split; [reflexivity|]. split; [vm_compute; do 3 right; left; reflexivity|].
  split; [reflexivity|].
  split; [reflexivity|]. split; [|reflexivity].
  apply Forall_app. split.
  - repeat constructor; intros (target & arg & He); discriminate He.
  - apply deliver_never_starts_sound.
Qed.

(** * Further properties of the scripts *)

(** ** Closing on the [q] key *)

Section QuitKey.
Context {address response : Type} `{Truthy response}.
Abbreviation event := (event address response).

Lemma land_255 k : Z.land k 255 = k mod 256.
Proof. change 255 with (Z.ones 8). rewrite Z.land_ones by easy. reflexivity. Qed.

Lemma quit_key k : (Z.land k 255 =? 113) = true <-> k mod 256 = 113.
Proof. rewrite land_255. apply Z.eqb_eq. Qed.

(** What the loop over the tracked persons does: drawing calls and
    questions to the persons, nothing else. *)
Definition drawing (e : event) : Prop :=
  match e with
  | putText _ _ _ _ _ _ _ | circle _ _ _ _ | rectangle _ _ _ _
  | is_person_seen_call _ _ => True
  | _ => False
  end.

Lemma passes_drawing g objs (e : event) :
  In e (flat_map (pass g) objs) -> drawing e.
Proof.
  intros Hin. apply in_flat_map in Hin. destruct Hin as ([objectID p] & _ & Hin).
  unfold pass, label, box in Hin; cbn [fst snd] in Hin.
  destruct (rect p) as [[[x0 y0] x1] y1], (is_seen p); cbn in Hin;
    repeat (destruct Hin as [<- | Hin]; [exact I|]); destruct Hin.
Qed.

Lemma in_display_api_shutdown fr (self : Eyeware.GazeViewer address) :
  In (api_shutdown (address := address) (response := response)) (display fr self)
  <-> Eyeware.key fr mod 256 = 113.
Proof.
  rewrite <- quit_key. unfold display, shutdown_sequence.
  destruct (Z.land (Eyeware.key fr) 255 =? 113); cbn; split; intros Hin;
    try reflexivity; try discriminate Hin; try tauto.
  repeat (destruct Hin as [Hin | Hin]; [discriminate Hin|]). destruct Hin.
Qed.

(** X1. In both scripts the frame handler shuts the API down exactly when the
    low byte of the key [cv2.waitKey(1)] returned is 113, the code of [q]:
    any key equal to 113 modulo 256 closes, no other one does (in
    particular not -1, the answer when no key was pressed).  When it
    closes, the four shutdown calls and [destroyAllWindows] end the
    handler's calls ([eyetracking/pyside.py] then still prints the
    coordinates).  For [eyeware.py] this is for a frame the handler gets
    through without raising. *)
Theorem q_key_closes
        (pfr : Pyside.frame) (pself : Pyside.GazeViewer address)
        (efr : Eyeware.frame) (eself : Eyeware.GazeViewer address) :
  let pt := trace (Pyside._handle_video_stream (response := response) pfr pself) in
  let er := Eyeware._handle_video_stream (response := response) efr eself in
  ((In api_shutdown pt <-> Pyside.key pfr mod 256 = 113)
   /\ (Pyside.key pfr mod 256 = 113 ->
       exists before,
         pt = before
                ++ shutdown_sequence
                     (Pyside._video_receiver_address (Pyside.frontend pself))
                ++ [destroyAllWindows;
                    print_gaze (Pyside._gaze_coordinates pself)]))
  /\ (result er = Returned tt ->
      (In api_shutdown (trace er) <-> Eyeware.key efr mod 256 = 113)
      /\ (Eyeware.key efr mod 256 = 113 ->
          exists before,
            trace er
            = before
                ++ shutdown_sequence
                     (Eyeware._video_receiver_address (Eyeware.frontend eself))
                ++ [destroyAllWindows])).
Proof.
  intros pt er. subst pt er. split.
  - rewrite pyside_handle_video_stream_run. cbn [trace fst].
    rewrite <- quit_key. unfold shutdown_sequence.
    destruct (Z.land (Pyside.key pfr) 255 =? 113); split.
    + split; [reflexivity|]. intros _. cbn. auto 10.
    + intros _.
      exists [putText (gaze_text (Pyside._gaze_coordinates pself)) Pyside.TEXT_ORG
                      Pyside.FONT Pyside.FONT_SCALE Pyside.TEXT_COLOR
                      Pyside.TEXT_THICKNESS LINE_AA;
              imshow "preview"%string; waitKey 1].
      reflexivity.
    + split; [|discriminate]. cbn. intros Hin.
      repeat (destruct Hin as [Hin | Hin]; [discriminate Hin|]). destruct Hin.
    + discriminate.
  - pose proof (_handle_video_stream_run (response := response) efr eself) as Hrun.
    cbv zeta in Hrun. rewrite Hrun. clear Hrun.
    set (g := Eyeware._gaze_coordinates eself).
    assert (Hhead : forall tl,
               In (api_shutdown : event)
                  ((flat_map (pass g) (Eyeware.objects efr) ++ [overlay g])
                     ++ tl ++ display efr eself)
               -> In (api_shutdown : event) tl \/ Eyeware.key efr mod 256 = 113).
    { intros tl Hin. apply in_app_or in Hin. destruct Hin as [Hin | Hin].
      - apply in_app_or in Hin. destruct Hin as [Hin | Hin].
        + apply passes_drawing in Hin. destruct Hin.
        + destruct Hin as [Hin | []]. discriminate Hin.
      - apply in_app_or in Hin. destruct Hin as [Hin | Hin]; [left; exact Hin|].
        right. apply in_display_api_shutdown in Hin. exact Hin. }
    assert (Htail : Eyeware.key efr mod 256 = 113 ->
                    display (response := response) efr eself
                    = [imshow "preview"%string; waitKey 1]
                        ++ shutdown_sequence
                             (Eyeware._video_receiver_address (Eyeware.frontend eself))
                        ++ [destroyAllWindows]).
    { intros Hk. apply quit_key in Hk. unfold display. rewrite Hk. reflexivity. }
    destruct (math_isnan _ || math_isnan _);
      [|destruct (py_int _) as [e|x];
       [|destruct (py_int _) as [e|y]; [|destruct (cv2_point _)]]];
      cbn [trace result fst snd]; intros Hr; try discriminate Hr.
    + split; [split|].
      * intros Hin. destruct (Hhead [] Hin) as [[] | Hk]. exact Hk.
      * intros Hk. apply in_or_app. right. apply in_display_api_shutdown. exact Hk.
      * intros Hk. rewrite (Htail Hk). eexists. rewrite !app_assoc. reflexivity.
    + split; [split|].
      * intros Hin. destruct (Hhead _ Hin) as [Hm | Hk]; [|exact Hk].
        cbn in Hm. destruct Hm as [Hm | [Hm | []]]; discriminate Hm.
      * intros Hk. apply in_or_app. right. apply in_or_app. right.
        apply in_display_api_shutdown. exact Hk.
      * intros Hk. rewrite (Htail Hk). eexists. rewrite !app_assoc. reflexivity.
Qed.
End QuitKey.

(** ** Who is asked, and the handler's own flag *)

Section AskedAndFlagged.
Context {address response : Type} `{Truthy response}.
Abbreviation event := (event address response).

(** The questions a trace puts to tracked persons, in order: whom, and with
    which coordinates. *)
Definition seen_calls (t : list event) : list (Z * gaze) :=
  flat_map (fun e => match e with
                     | is_person_seen_call objectID g => [(objectID, g)]
                     | _ => []
                     end) t.

Lemma seen_calls_app t1 t2 : seen_calls (t1 ++ t2) = seen_calls t1 ++ seen_calls t2.
Proof. apply flat_map_app. Qed.

Lemma seen_calls_box p c : seen_calls [box p c] = [].
Proof. unfold box. destruct (rect p) as [[[x0 y0] x1] y1]. reflexivity. Qed.

Lemma seen_calls_passes g objs :
  seen_calls (flat_map (pass g) objs)
  = map (fun item => (fst item, g))
        (filter (fun item => negb (snd item).(is_seen)) objs).
Proof.
  induction objs as [|item objs IH]; [reflexivity|].
  cbn [flat_map filter]. rewrite seen_calls_app, IH. unfold pass.
  rewrite !seen_calls_app, seen_calls_box.
  destruct (is_seen (snd item)); reflexivity.
Qed.

Lemma seen_calls_display fr (self : Eyeware.GazeViewer address) :
  seen_calls (display fr self) = [].
Proof. unfold display. destruct (_ =? _); reflexivity. Qed.

(** X2. In [eyeware.py] the handler asks [is_person_seen] of exactly the
    tracked persons that are not yet marked seen, once each, in the
    tracker's order and always with the stored gaze coordinates; a person
    marked seen is not asked again.  This holds whether or not the handler
    later raises. *)
Theorem is_person_seen_asked_of_the_unseen
        fr (self : Eyeware.GazeViewer address) :
  seen_calls (trace (Eyeware._handle_video_stream (response := response) fr self))
  = map (fun item => (fst item, Eyeware._gaze_coordinates self))
        (filter (fun item => negb (snd item).(is_seen)) (Eyeware.objects fr)).
Proof.
  pose proof (_handle_video_stream_run (response := response) fr self) as Hrun.
  cbv zeta in Hrun. rewrite Hrun.
  destruct (math_isnan _ || math_isnan _);
    [|destruct (py_int _) as [e|x];
       [|destruct (py_int _) as [e|y]; [|destruct (cv2_point _)]]];
    cbn [trace fst];
    rewrite ?seen_calls_app, ?seen_calls_display, seen_calls_passes;
    cbn [seen_calls flat_map overlay marker app]; rewrite ?app_nil_r; reflexivity.
Qed.

Lemma red_not_green : Eyeware.red <> Eyeware.green.
Proof. discriminate. Qed.

Lemma red_not_yellow : Eyeware.red <> Eyeware.yellow.
Proof. discriminate. Qed.

Lemma in_red_passes g objs :
  In Eyeware.red (rectangle_colours (address := address) (response := response)
                    (flat_map (pass g) objs))
  <-> existsb (fun item => flagged g (snd item)) objs = true.
Proof.
  induction objs as [|item objs IH]; [cbn; split; [intros [] | discriminate]|].
  cbn [flat_map existsb]. rewrite rectangle_colours_app, in_app_iff, IH, orb_true_iff.
  apply or_iff_compat_r. unfold pass, flagged.
  rewrite !rectangle_colours_app, rectangle_colours_box.
  destruct (is_seen (snd item)), (is_person_seen (snd item) g),
    (is_person_close (snd item)); cbn; split; intros Hin;
    try reflexivity; try discriminate Hin; try tauto;
    destruct Hin as [Hin | []]; discriminate Hin.
Qed.

(** X3. In [eyeware.py] the handler's local [play_sound] is [True] at the end
    of the loop exactly when the frame got at least one rectangle of the
    colour (255, 0, 0); it starts from [False] on every frame, so it says
    nothing about earlier frames. *)
Theorem local_play_sound_iff_red_rectangle
        fr (self : Eyeware.GazeViewer address) :
  result (Eyeware.tracked_persons (response := response) fr self) = Returned true
  <-> In Eyeware.red
         (rectangle_colours
            (trace (Eyeware._handle_video_stream (response := response) fr self))).
Proof.
  rewrite rectangle_colours_handler, in_red_passes, tracked_persons_run.
  cbn [result snd]. split; [intros Hr; injection Hr as ->; reflexivity | intros ->; reflexivity].
Qed.
End AskedAndFlagged.

(** ** Whole runs *)

Section WholeRuns.
Context {address response : Type} `{Truthy response}.
Abbreviation event := (event address response).

(** X4. No run of [eyeware.py] plays the warning sound: in [main] and in the
    callbacks delivered afterwards, whatever they are and however the run
    ends, no call starts the sound process; the module's [play_sound] is
    [False] throughout, so [play_warning_sound], were it called again after
    the run, would call [terminate] on the process, not start it. *)
Theorem no_run_starts_the_sound (a : address) (ins : list (Eyeware.input response)) :
  let r := Eyeware.deliver ins (store (Eyeware.main (response := response) a)) in
  Forall (fun e => ~ starts_sound e)
         (trace (Eyeware.main (response := response) a) ++ trace r)
  /\ Eyeware.play_sound (store r) = false
  /\ trace (Eyeware.play_warning_sound (store r))
     = [Process_terminate (address := address) (response := response)
          "playsound"%string "/sound/soundeffect.mp3"%string].
Proof.
  intros r. subst r.
  destruct (deliver_never_starts_sound (address := address) ins) as [Hn Hk].
  set (s0 := store (Eyeware.main (response := response) a)).
  assert (Hp : Eyeware.play_sound (store (Eyeware.deliver ins s0)) = false)
    by (rewrite (Hk s0); reflexivity).
  split; [|split].
  - apply Forall_app. split; [|apply Hn].
    cbn. repeat constructor; intros (target & arg & He); discriminate He.
  - exact Hp.
  - unfold Eyeware.play_warning_sound, bind, get. rewrite Hp. reflexivity.
Qed.

(** The responses that connect: a connection response that is no error. *)
Definition pyside_connects (i : Pyside.input response) : bool :=
  match i with
  | Pyside.connect_response error => negb (truthy error)
  | _ => false
  end.

Definition eyeware_connects (i : Eyeware.input response) : bool :=
  match i with
  | Eyeware.connect_response error => negb (truthy error)
  | _ => false
  end.

Lemma pyside_dispatch_connected (i : Pyside.input response)
      (self : Pyside.GazeViewer address) :
  Pyside.GazeViewer_connected (store (Pyside.dispatch i self))
  = Pyside.GazeViewer_connected self || pyside_connects i.
Proof.
  unfold Pyside.GazeViewer_connected.
  destruct i as [error | error | x y | fr]; cbn [Pyside.dispatch pyside_connects].
  - unfold Pyside.on_frontend. rewrite zoom_run. cbn [store fst snd Pyside.frontend].
    unfold Pyside._handle_connect_response.
    destruct (truthy error); cbn; [rewrite orb_false_r | rewrite orb_true_r]; reflexivity.
  - unfold Pyside.on_frontend. rewrite zoom_run. cbn [store fst snd Pyside.frontend].
    unfold Pyside._handle_camera_start_response.
    destruct (truthy error); cbn; rewrite orb_false_r; reflexivity.
  - cbn. rewrite orb_false_r. reflexivity.
  - rewrite pyside_handle_video_stream_run. cbn. rewrite orb_false_r. reflexivity.
Qed.

Lemma eyeware_dispatch_connected (i : Eyeware.input response)
      (s : Eyeware.script address) :
  Eyeware.GazeViewer_connected (Eyeware.main_window (store (Eyeware.dispatch i s)))
  = Eyeware.GazeViewer_connected (Eyeware.main_window s) || eyeware_connects i.
Proof.
  unfold Eyeware.GazeViewer_connected, Eyeware.dispatch, Eyeware.on_main_window.
  rewrite zoom_run. cbn [store fst snd Eyeware.main_window].
  destruct i as [error | error | x y | fr]; cbn [eyeware_connects].
  - unfold Eyeware.on_frontend. rewrite zoom_run. cbn [store fst snd Eyeware.frontend].
    unfold Eyeware._handle_connect_response.
    destruct (truthy error); cbn; [rewrite orb_false_r | rewrite orb_true_r]; reflexivity.
  - unfold Eyeware.on_frontend. rewrite zoom_run. cbn [store fst snd Eyeware.frontend].
    unfold Eyeware._handle_camera_start_response.
    destruct (truthy error); cbn; rewrite orb_false_r; reflexivity.
  - cbn. rewrite orb_false_r. reflexivity.
  - rewrite eyeware_handle_video_stream_store, orb_false_r. reflexivity.
Qed.

(** The store a sequence leaves is that of its first part when that raises,
    and that of the rest otherwise. *)
Lemma bind_store {E S A B} (c : prog E S A) (k : A -> prog E S B) s :
  (exists e, result (c s) = Raised e /\ bind c k s = (trace (c s), store (c s), Raised e))
  \/ (exists a, result (c s) = Returned a
                /\ trace (bind c k s) = trace (c s) ++ trace (k a (store (c s)))
                /\ store (bind c k s) = store (k a (store (c s)))
                /\ result (bind c k s) = result (k a (store (c s)))).
Proof.
  unfold bind, trace, store, result.
  destruct (c s) as [[t1 s1] [a|e]]; cbn [fst snd].
  - right. exists a. destruct (k a s1) as [[t2 s2] o]. repeat split; reflexivity.
  - left. exists e. split; reflexivity.
Qed.

Lemma pyside_deliver_connected (ins : list (Pyside.input response)) :
  forall self : Pyside.GazeViewer address,
    (Pyside.GazeViewer_connected self = true ->
     Pyside.GazeViewer_connected (store (Pyside.deliver ins self)) = true)
    /\ (result (Pyside.deliver ins self) = Returned tt ->
        Pyside.GazeViewer_connected (store (Pyside.deliver ins self))
        = Pyside.GazeViewer_connected self || existsb pyside_connects ins).
Proof.
  induction ins as [|i ins IH]; intros self.
  - cbn. rewrite orb_false_r. split; auto.
  - cbn [Pyside.deliver existsb].
    pose proof (pyside_dispatch_connected i self) as Hd.
    destruct (bind_store (Pyside.dispatch i) (fun _ => Pyside.deliver ins) self)
      as [(e & He & Hb) | (u & Hu & _ & Hs & Hr)].
    + rewrite Hb. cbn [store result fst snd]. split; [|discriminate].
      intros Hc. rewrite Hd, Hc. reflexivity.
    + rewrite Hs, Hr. destruct (IH (store (Pyside.dispatch i self))) as [IH1 IH2].
      split.
      * intros Hc. apply IH1. rewrite Hd, Hc. reflexivity.
      * intros Hret. rewrite (IH2 Hret), Hd, orb_assoc. reflexivity.
Qed.

Lemma eyeware_deliver_connected (ins : list (Eyeware.input response)) :
  forall s : Eyeware.script address,
    (Eyeware.GazeViewer_connected (Eyeware.main_window s) = true ->
     Eyeware.GazeViewer_connected (Eyeware.main_window (store (Eyeware.deliver ins s)))
     = true)
    /\ (result (Eyeware.deliver ins s) = Returned tt ->
        Eyeware.GazeViewer_connected (Eyeware.main_window (store (Eyeware.deliver ins s)))
        = Eyeware.GazeViewer_connected (Eyeware.main_window s)
          || existsb eyeware_connects ins).
Proof.
  induction ins as [|i ins IH]; intros s.
  - cbn. rewrite orb_false_r. split; auto.
  - cbn [Eyeware.deliver existsb].
    pose proof (eyeware_dispatch_connected i s) as Hd.
    destruct (bind_store (Eyeware.dispatch i) (fun _ => Eyeware.deliver ins) s)
      as [(e & He & Hb) | (u & Hu & _ & Hs & Hr)].
    + rewrite Hb. cbn [store result fst snd]. split; [|discriminate].
      intros Hc. rewrite Hd, Hc. reflexivity.
    + rewrite Hs, Hr. destruct (IH (store (Eyeware.dispatch i s))) as [IH1 IH2].
      split.
      * intros Hc. apply IH1. rewrite Hd, Hc. reflexivity.
      * intros Hret. rewrite (IH2 Hret), Hd, orb_assoc. reflexivity.
Qed.

(** X5. In both scripts the [connected] property that [main] polls never goes
    back to [False]: no callback clears it, not even the shutdown that the
    [q] key or a camera error triggers.  After callbacks delivered to a
    freshly started script without an exception, it is [True] exactly when
    one of them was a connection response without error. *)
Theorem connected_once_connected (a : address) :
  (forall ins (self : Pyside.GazeViewer address),
      Pyside.GazeViewer_connected self = true ->
      Pyside.GazeViewer_connected (store (Pyside.deliver ins self)) = true)
  /\ (forall ins (s : Eyeware.script address),
         Eyeware.GazeViewer_connected (Eyeware.main_window s) = true ->
         Eyeware.GazeViewer_connected
           (Eyeware.main_window (store (Eyeware.deliver ins s))) = true)
  /\ (forall ins : list (Pyside.input response),
         let r := Pyside.deliver ins (snd (Pyside.main (response := response) a)) in
         result r = Returned tt ->
         Pyside.GazeViewer_connected (store r) = existsb pyside_connects ins)
  /\ (forall ins : list (Eyeware.input response),
         let r := Eyeware.deliver ins (store (Eyeware.main (response := response) a)) in
         result r = Returned tt ->
         Eyeware.GazeViewer_connected (Eyeware.main_window (store r))
         = existsb eyeware_connects ins).
Proof.
  split; [|split; [|split]].
  - intros ins self. apply pyside_deliver_connected.
  - intros ins s. apply eyeware_deliver_connected.
  - intros ins r Hr. subst r.
    rewrite (proj2 (pyside_deliver_connected ins _) Hr). reflexivity.
  - intros ins r Hr. subst r.
    rewrite (proj2 (eyeware_deliver_connected ins _) Hr). reflexivity.
Qed.

(** A call that names a video stream's destination names [a]. *)
Definition addressed (a : address) (e : event) : Prop :=
  match e with
  | start_video_stream a' _ | stop_video_stream a' _ => a' = a
  | _ => True
  end.

Lemma addressed_shutdown_sequence a : Forall (addressed a) (shutdown_sequence a).
Proof. repeat constructor. Qed.






End WholeRuns.

(** ** The binary64 arithmetic of the rescaling

    The marker's coordinates are [int(x / 1280 * 640)] and
    [int(y / 720 * 360)], computed on binary64 floats.  The facts below
    follow the standard library's specification of these floats
    ([SpecFloat]): a division or a multiplication is the exact result,
    shifted to the format's exponent and rounded to nearest even. *)

(** *** Mantissas stay non-negative *)

Lemma shr_1_nonneg mrs : 0 <= shr_m mrs -> 0 <= shr_m (shr_1 mrs).
Proof.
  destruct mrs as [m r s]. cbn [shr_m]. intros Hm.
  destruct m as [|[p|p|]|p]; cbn; try apply Pos2Z.is_nonneg; try reflexivity.
  all: exfalso; apply Hm; reflexivity.
Qed.

Lemma iter_pos_keeps {A} (P : A -> Prop) (f : A -> A) :
  (forall x, P x -> P (f x)) -> forall p x, P x -> P (iter_pos f p x).
Proof.
  intros Hf. induction p as [p IH|p IH|]; intros x Hx; cbn; auto.
Qed.

Lemma shr_fexp_nonneg m e l :
  0 <= m -> 0 <= shr_m (fst (shr_fexp prec emax m e l)).
Proof.
  intros Hm. unfold shr_fexp, shr.
  assert (H0 : 0 <= shr_m (shr_record_of_loc m l))
    by (destruct l as [|[ | | ]]; exact Hm).
  destruct (fexp prec emax (Zdigits2 m + e) - e); cbn [fst]; try exact H0.
  apply (iter_pos_keeps (fun mrs => 0 <= shr_m mrs)); [apply shr_1_nonneg | exact H0].
Qed.

Lemma round_nearest_even_nonneg m l : 0 <= m -> 0 <= round_nearest_even m l.
Proof.
  intros Hm. unfold round_nearest_even.
  destruct l as [|[ | | ]]; try exact Hm; [destruct (Z.even m)|];
    try exact Hm; apply Z.add_nonneg_nonneg; [exact Hm | discriminate | exact Hm | discriminate].
Qed.

Lemma SFdiv_core_binary_nonneg m1 e1 m2 e2 :
  0 <= fst (fst (SFdiv_core_binary prec emax (Z.pos m1) e1 (Z.pos m2) e2)).
Proof.
  unfold SFdiv_core_binary.
  set (s := e1 - e2 - _).
  set (m' := match s with Z.pos _ => Z.shiftl (Z.pos m1) s | 0 => Z.pos m1 | Z.neg _ => 0 end).
  assert (Hm' : 0 <= m').
  { subst m'. destruct s; [discriminate | | reflexivity].
    apply Z.shiftl_nonneg. discriminate. }
  pose proof (Z_div_mod m' (Z.pos m2) eq_refl) as Hdm.
  destruct (Z.div_eucl m' (Z.pos m2)) as [q r]. cbn [fst].
  destruct Hdm as [Heq Hr].
  apply Z.nlt_ge. intros Hq.
  assert (Z.pos m2 * q <= - Z.pos m2) by nia. nia.
Qed.

(** *** Sizes *)

Lemma digits2_pos_lower p : 2 ^ (Z.pos (digits2_pos p) - 1) <= Z.pos p.
Proof.
  induction p as [p IH|p IH|]; cbn [digits2_pos]; [| |reflexivity];
    rewrite Pos2Z.inj_succ;
    replace (Z.succ (Z.pos (digits2_pos p)) - 1)
      with (Z.succ (Z.pos (digits2_pos p) - 1)) by lia;
    rewrite Z.pow_succ_r by lia; lia.
Qed.

Lemma digits2_pos_upper p : Z.pos p < 2 ^ Z.pos (digits2_pos p).
Proof.
  induction p as [p IH|p IH|]; cbn [digits2_pos]; [| |reflexivity];
    rewrite Pos2Z.inj_succ, Z.pow_succ_r by lia; lia.
Qed.

Lemma Zdigits2_nonneg m : 0 <= Zdigits2 m.
Proof. destruct m; cbn; lia. Qed.

Lemma Zdigits2_le m k : 0 <= m -> 0 <= k -> m < 2 ^ k -> Zdigits2 m <= k.
Proof.
  intros Hm Hk Hlt. destruct m as [|p|p]; cbn [Zdigits2]; [exact Hk| |lia].
  pose proof (digits2_pos_lower p) as Hl.
  apply Z.nlt_ge. intros Hd.
  assert (2 ^ k <= 2 ^ (Z.pos (digits2_pos p) - 1))
    by (apply Z.pow_le_mono_r; lia).
  lia.
Qed.

Lemma Zdigits2_upper m : 0 <= m -> m < 2 ^ Zdigits2 m.
Proof.
  destruct m as [|p|p]; intros Hm; [reflexivity | apply digits2_pos_upper | lia].
Qed.

(** *** Shifting right *)

Lemma shr_m_shr_1 mrs : 0 <= shr_m mrs -> shr_m (shr_1 mrs) = shr_m mrs / 2.
Proof.
  destruct mrs as [m r s]. cbn [shr_m]. intros Hm.
  destruct m as [|[p|p|]|p]; cbn [shr_1 shr_m]; try reflexivity; try lia.
  - rewrite Pos2Z.inj_xI. apply Z.div_unique with (r := 1); lia.
  - rewrite Pos2Z.inj_xO. apply Z.div_unique with (r := 0); lia.
Qed.

Lemma pow_xO p : 2 ^ Z.pos p~0 = 2 ^ Z.pos p * 2 ^ Z.pos p.
Proof.
  replace (Z.pos p~0) with (Z.pos p + Z.pos p) by lia.
  apply Z.pow_add_r; lia.
Qed.

Lemma pow_xI p : 2 ^ Z.pos p~1 = 2 * (2 ^ Z.pos p * 2 ^ Z.pos p).
Proof.
  replace (Z.pos p~1) with (Z.succ (Z.pos p + Z.pos p)) by lia.
  rewrite Z.pow_succ_r, Z.pow_add_r by lia. reflexivity.
Qed.

Lemma shr_m_iter p : forall mrs,
  0 <= shr_m mrs ->
  0 <= shr_m (iter_pos shr_1 p mrs)
  /\ shr_m (iter_pos shr_1 p mrs) = shr_m mrs / 2 ^ Z.pos p.
Proof.
  induction p as [p IH|p IH|]; intros mrs Hm; cbn [iter_pos].
  - pose proof (shr_1_nonneg mrs Hm) as H1.
    destruct (IH _ H1) as [H2 E2]. destruct (IH _ H2) as [H3 E3].
    split; [exact H3|]. rewrite E3, E2, shr_m_shr_1 by exact Hm.
    assert (0 < 2 ^ Z.pos p) by (apply Z.pow_pos_nonneg; lia).
    rewrite !Z.div_div by lia. rewrite pow_xI. f_equal; ring.
  - destruct (IH _ Hm) as [H2 E2]. destruct (IH _ H2) as [H3 E3].
    split; [exact H3|].
    assert (0 < 2 ^ Z.pos p) by (apply Z.pow_pos_nonneg; lia).
    rewrite E3, E2, Z.div_div by lia. rewrite pow_xO. reflexivity.
  - split; [apply shr_1_nonneg; exact Hm|]. rewrite shr_m_shr_1 by exact Hm. reflexivity.
Qed.

Lemma shr_fexp_spec m e l :
  0 <= m ->
  snd (shr_fexp prec emax m e l) = Z.max e (fexp prec emax (Zdigits2 m + e))
  /\ shr_m (fst (shr_fexp prec emax m e l))
     = m / 2 ^ (snd (shr_fexp prec emax m e l) - e).
Proof.
  intros Hm. unfold shr_fexp, shr.
  assert (H0 : shr_m (shr_record_of_loc m l) = m) by (destruct l as [|[ | | ]]; reflexivity).
  destruct (fexp prec emax (Zdigits2 m + e) - e) as [|p|p] eqn:En; cbn [fst snd].
  - split; [lia|]. rewrite Z.sub_diag, Z.div_1_r. exact H0.
  - split; [lia|]. replace (e + Z.pos p - e) with (Z.pos p) by lia.
    rewrite <- H0 at 2. apply shr_m_iter. rewrite H0. exact Hm.
  - split; [lia|]. rewrite Z.sub_diag, Z.div_1_r. exact H0.
Qed.

Lemma round_nearest_even_le m l : round_nearest_even m l <= m + 1.
Proof.
  unfold round_nearest_even. destruct l as [|[ | | ]]; try lia.
  destruct (Z.even m); lia.
Qed.

Lemma fexp_le z E : z - prec <= E -> emin <= E -> fexp prec emax z <= E.
Proof. unfold fexp, SpecFloat.emin. intros. lia. Qed.

(** Rounding stays below a bound [K * 2^E] whose [K] fits the precision. *)
Lemma binary_round_aux_below s mx ex lx K E :
  0 <= mx -> ex <= E -> emin <= E -> E <= emax - prec ->
  0 < K < 2 ^ prec ->
  mx < K * 2 ^ (E - ex) ->
  binary_round_aux prec emax s mx ex lx = S754_zero s
  \/ exists m e,
      binary_round_aux prec emax s mx ex lx = S754_finite s m e
      /\ e <= E /\ Z.pos m <= K * 2 ^ (E - e) /\ Z.pos m < 2 ^ prec.
Proof.
  intros Hmx Hex Hemin Hemax HK Hlt.
  unfold binary_round_aux.
  destruct (shr_fexp_spec mx ex lx Hmx) as [He1 Hm1].
  pose proof (shr_fexp_nonneg mx ex lx Hmx) as Hn1.
  destruct (shr_fexp prec emax mx ex lx) as [mrs' e1]. cbn [fst snd] in *.
  assert (Hpow : forall a b, 0 <= a -> 0 <= b -> 2 ^ (a + b) = 2 ^ a * 2 ^ b)
    by (intros; apply Z.pow_add_r; assumption).
  assert (Hpos : forall a, 0 < 2 ^ a \/ a < 0).
  { intros a. destruct (Z.lt_ge_cases a 0); [right; assumption|left].
    apply Z.pow_pos_nonneg; lia. }
  (* the first exponent *)
  assert (Hd : Zdigits2 mx <= prec + (E - ex)).
  { apply Zdigits2_le; [exact Hmx | unfold prec; lia |].
    rewrite Hpow by (unfold prec; lia).
    assert (0 < 2 ^ (E - ex)) by (apply Z.pow_pos_nonneg; lia). nia. }
  assert (He1E : e1 <= E).
  { rewrite He1. apply Z.max_lub; [exact Hex|]. apply fexp_le; [lia | exact Hemin]. }
  assert (He1ex : ex <= e1) by (rewrite He1; apply Z.le_max_l).
  set (m' := shr_m mrs') in *.
  assert (Hm' : m' < K * 2 ^ (E - e1)).
  { rewrite Hm1. apply Z.div_lt_upper_bound; [apply Z.pow_pos_nonneg; lia|].
    replace (E - ex) with ((e1 - ex) + (E - e1)) in Hlt by lia.
    rewrite Hpow in Hlt by lia. lia. }
  set (m1 := round_nearest_even m' (loc_of_shr_record mrs')).
  assert (Hm1n : 0 <= m1) by (apply round_nearest_even_nonneg; exact Hn1).
  assert (Hm1le : m1 <= K * 2 ^ (E - e1))
    by (pose proof (round_nearest_even_le m' (loc_of_shr_record mrs')); fold m1 in H; lia).
  (* the second exponent *)
  destruct (shr_fexp_spec m1 e1 loc_Exact Hm1n) as [He2 Hm2].
  pose proof (shr_fexp_nonneg m1 e1 loc_Exact Hm1n) as Hn2.
  destruct (shr_fexp prec emax m1 e1 loc_Exact) as [mrs'' e2]. cbn [fst snd] in *.
  assert (Hd1 : Zdigits2 m1 <= prec + (E - e1)).
  { apply Zdigits2_le; [exact Hm1n | unfold prec; lia |].
    rewrite Hpow by (unfold prec; lia).
    assert (0 < 2 ^ (E - e1)) by (apply Z.pow_pos_nonneg; lia). nia. }
  assert (He2E : e2 <= E).
  { rewrite He2. apply Z.max_lub; [exact He1E|]. apply fexp_le; [lia | exact Hemin]. }
  assert (He2e1 : e1 <= e2) by (rewrite He2; apply Z.le_max_l).
  assert (Hm'' : shr_m mrs'' <= K * 2 ^ (E - e2)).
  { rewrite Hm2.
    replace (E - e1) with ((E - e2) + (e2 - e1)) in Hm1le by lia.
    rewrite Hpow in Hm1le by lia.
    assert (0 < 2 ^ (e2 - e1)) by (apply Z.pow_pos_nonneg; lia).
    apply Z.div_le_upper_bound; [assumption|]. lia. }
  assert (Hfit : shr_m mrs'' < 2 ^ prec).
  { rewrite Hm2. apply Z.div_lt_upper_bound; [apply Z.pow_pos_nonneg; lia|].
    pose proof (Zdigits2_upper m1 Hm1n) as Hup.
    pose proof (Zdigits2_nonneg m1) as Hdn.
    assert (Hexp : Zdigits2 m1 <= (e2 - e1) + prec).
    { rewrite He2. unfold fexp. lia. }
    assert (2 ^ Zdigits2 m1 <= 2 ^ ((e2 - e1) + prec))
      by (apply Z.pow_le_mono_r; lia).
    rewrite Hpow in H by (unfold prec; lia). lia. }
  destruct (shr_m mrs'') as [|m|m].
  - left. reflexivity.
  - right. exists m, e2.
    replace (e2 <=? emax - prec) with true by (symmetry; apply Z.leb_le; lia).
    repeat split; assumption.
  - exfalso. apply Hn2. reflexivity.
Qed.

(** *** Values below a bound *)

(** [A * 2^a < B * 2^b], read at any scale that makes both exponents
    non-negative. *)
Definition below (A a B b : Z) : Prop :=
  forall N, 0 <= a + N -> 0 <= b + N -> A * 2 ^ (a + N) < B * 2 ^ (b + N).

Lemma below_at A a B b N :
  0 <= a + N -> 0 <= b + N -> A * 2 ^ (a + N) < B * 2 ^ (b + N) -> below A a B b.
Proof.
  intros Ha Hb Hlt M HaM HbM.
  destruct (Z.le_gt_cases N M) as [Hle | Hgt].
  - replace (a + M) with ((a + N) + (M - N)) by lia.
    replace (b + M) with ((b + N) + (M - N)) by lia.
    rewrite (Z.pow_add_r 2 (a + N) (M - N)), (Z.pow_add_r 2 (b + N) (M - N)) by lia.
    assert (0 < 2 ^ (M - N)) by (apply Z.pow_pos_nonneg; lia).
    rewrite !Z.mul_assoc. apply Z.mul_lt_mono_pos_r; assumption.
  - replace (a + N) with ((a + M) + (N - M)) in Hlt by lia.
    replace (b + N) with ((b + M) + (N - M)) in Hlt by lia.
    rewrite (Z.pow_add_r 2 (a + M) (N - M)), (Z.pow_add_r 2 (b + M) (N - M)) in Hlt by lia.
    assert (0 < 2 ^ (N - M)) by (apply Z.pow_pos_nonneg; lia).
    rewrite !Z.mul_assoc in Hlt. apply Z.mul_lt_mono_pos_r in Hlt; assumption.
Qed.

(** A float of sign [s] that is a zero or a finite number of magnitude at
    most [K * 2^E]. *)
Definition bounded_by (s : bool) (K E : Z) (f : spec_float) : Prop :=
  f = S754_zero s
  \/ exists m e,
      f = S754_finite s m e /\ e <= E /\ Z.pos m <= K * 2 ^ (E - e)
      /\ Z.pos m < 2 ^ prec.

Lemma SFdiv_below sx mx ex sc mc ec K E :
  0 < K < 2 ^ prec -> emin <= E -> E <= emax - prec ->
  Zdigits2 (Z.pos mx) + ex - (Zdigits2 (Z.pos mc) + ec) - prec <= E ->
  below (Z.pos mx) (ex - ec) (Z.pos mc * K) E ->
  bounded_by (xorb sx sc) K E
             (SFdiv prec emax (S754_finite sx mx ex) (S754_finite sc mc ec)).
Proof.
  intros HK Hemin Hemax Hdig Hval. unfold SFdiv.
  pose proof (SFdiv_core_binary_nonneg mx ex mc ec) as Hq0.
  unfold SFdiv_core_binary in *.
  set (e' := Z.min (fexp prec emax (Zdigits2 (Z.pos mx) + ex - (Zdigits2 (Z.pos mc) + ec)))
                   (ex - ec)) in *.
  set (s := ex - ec - e') in *.
  assert (He'E : e' <= E).
  { subst e'. etransitivity; [apply Z.le_min_l|]. apply fexp_le; assumption. }
  assert (He'r : e' <= ex - ec) by (apply Z.le_min_r).
  assert (Hs : 0 <= s) by (unfold s; lia).
  set (m' := match s with Z.pos _ => Z.shiftl (Z.pos mx) s | 0 => Z.pos mx | Z.neg _ => 0 end) in *.
  assert (Hm' : m' = Z.pos mx * 2 ^ s).
  { subst m'. destruct s as [|p|p]; [rewrite Z.mul_1_r; reflexivity | | lia].
    apply Z.shiftl_mul_pow2. lia. }
  pose proof (Z_div_mod m' (Z.pos mc) eq_refl) as Hdm.
  destruct (Z.div_eucl m' (Z.pos mc)) as [q r]. cbn [fst] in Hq0.
  destruct Hdm as [Heq Hr].
  apply binary_round_aux_below; try assumption.
  specialize (Hval (- e')).
  replace (ex - ec + - e') with s in Hval by (subst s; lia).
  replace (E + - e') with (E - e') in Hval by lia.
  specialize (Hval Hs ltac:(lia)).
  assert (0 < 2 ^ (E - e')) by (apply Z.pow_pos_nonneg; lia).
  nia.
Qed.

Lemma SFmul_below sx sc mc ec K E K2 E2 r :
  bounded_by sx K E r ->
  0 < K2 < 2 ^ prec -> emin <= E2 -> E2 <= emax - prec -> E + ec <= E2 ->
  below (K * Z.pos mc) (E + ec) K2 E2 ->
  bounded_by (xorb sx sc) K2 E2 (SFmul prec emax r (S754_finite sc mc ec)).
Proof.
  intros [-> | (m & e & -> & He & Hm & _)] HK2 Hemin Hemax HE Hval.
  - left. reflexivity.
  - unfold SFmul. apply binary_round_aux_below; try assumption; try lia.
    specialize (Hval (- (e + ec))).
    replace (E + ec + - (e + ec)) with (E - e) in Hval by lia.
    replace (E2 + - (e + ec)) with (E2 - (e + ec)) in Hval by lia.
    specialize (Hval ltac:(lia) ltac:(lia)).
    rewrite Pos2Z.inj_mul.
    assert (0 < Z.pos mc) by lia. nia.
Qed.

(** *** Binary64 values *)

Lemma valid_finite s m e :
  valid_binary (S754_finite s m e) = true ->
  Zdigits2 (Z.pos m) <= prec /\ Z.pos m < 2 ^ prec /\ emin <= e /\ e <= emax - prec.
Proof.
  unfold valid_binary. cbn [SpecFloat.valid_binary]. unfold bounded, canonical_mantissa.
  intros Hb. apply andb_prop in Hb. destruct Hb as [Hc He].
  apply Z.eqb_eq in Hc. apply Z.leb_le in He.
  assert (Hd : Z.pos (digits2_pos m) <= prec).
  { unfold fexp in Hc. lia. }
  repeat split; try assumption.
  - pose proof (digits2_pos_upper m).
    assert (2 ^ Z.pos (digits2_pos m) <= 2 ^ prec) by (apply Z.pow_le_mono_r; lia).
    lia.
  - rewrite <- Hc. unfold fexp. apply Z.le_max_r.
Qed.

(** A float is a NaN, an infinity, or a zero or a finite number. *)
Inductive float_class (x : float) : Prop :=
| class_nan : PrimFloat.is_nan x = true -> Prim2SF x = S754_nan -> float_class x
| class_infinity s :
    PrimFloat.is_nan x = false -> PrimFloat.is_infinity x = true ->
    Prim2SF x = S754_infinity s -> float_class x
| class_zero s :
    PrimFloat.is_nan x = false -> PrimFloat.is_infinity x = false ->
    Prim2SF x = S754_zero s -> float_class x
| class_finite s m e :
    PrimFloat.is_nan x = false -> PrimFloat.is_infinity x = false ->
    Prim2SF x = S754_finite s m e -> float_class x.

Lemma classify_float x : float_class x.
Proof.
  destruct (PrimFloat.is_nan x) eqn:Hn.
  { apply class_nan; [exact Hn|]. unfold Prim2SF. rewrite Hn. reflexivity. }
  destruct (is_zero x) eqn:Hz.
  { assert (Hx : Prim2SF x = S754_zero (get_sign x))
      by (unfold Prim2SF; rewrite Hn, Hz; reflexivity).
    apply (class_zero x (get_sign x)); [exact Hn | | exact Hx].
    unfold is_infinity. rewrite FloatAxioms.eqb_spec, abs_spec, Hx. reflexivity. }
  destruct (is_infinity x) eqn:Hi.
  { apply (class_infinity x (get_sign x)); [exact Hn | exact Hi |].
    unfold Prim2SF. rewrite Hn, Hz, Hi. reflexivity. }
  assert (Hx : Prim2SF x = S754_zero false
               \/ exists m e, Prim2SF x = S754_finite (get_sign x) m e).
  { unfold Prim2SF. rewrite Hn, Hz, Hi.
    destruct (Z.frexp x) as [r exp].
    destruct (shr_fexp prec emax _ _ loc_Exact) as [shr e'].
    destruct (shr_m shr); [left; reflexivity | right; eauto | left; reflexivity]. }
  destruct Hx as [Hx | (m & e & Hx)].
  - apply (class_zero x false); [exact Hn | exact Hi | exact Hx].
  - apply (class_finite x (get_sign x) m e); [exact Hn | exact Hi | exact Hx].
Qed.

(** [x / c1 * c2] for positive finite constants [c1] and [c2]. *)
Section Rescale.
Variables (c1 c2 : float) (m1 m2 : positive) (e1 e2 : Z).
Hypothesis Hc1 : Prim2SF c1 = S754_finite false m1 e1.
Hypothesis Hc2 : Prim2SF c2 = S754_finite false m2 e2.

Lemma rescale_spec x :
  Prim2SF (x / c1 * c2)
  = SFmul prec emax (SFdiv prec emax (Prim2SF x) (S754_finite false m1 e1))
          (S754_finite false m2 e2).
Proof. rewrite mul_spec, div_spec, Hc1, Hc2. reflexivity. Qed.

Lemma rescale_zero x s : Prim2SF x = S754_zero s -> Prim2SF (x / c1 * c2) = S754_zero s.
Proof. intros Hx. rewrite rescale_spec, Hx. destruct s; reflexivity. Qed.

Lemma rescale_infinity x s :
  Prim2SF x = S754_infinity s -> Prim2SF (x / c1 * c2) = S754_infinity s.
Proof. intros Hx. rewrite rescale_spec, Hx. destruct s; reflexivity. Qed.

Lemma rescale_below x s m e K E K2 E2 :
  Prim2SF x = S754_finite s m e ->
  0 < K < 2 ^ prec -> emin <= E -> E <= emax - prec ->
  0 < K2 < 2 ^ prec -> emin <= E2 -> E2 <= emax - prec -> E + e2 <= E2 ->
  Zdigits2 (Z.pos m) + e - (Zdigits2 (Z.pos m1) + e1) - prec <= E ->
  below (Z.pos m) (e - e1) (Z.pos m1 * K) E ->
  below (K * Z.pos m2) (E + e2) K2 E2 ->
  bounded_by s K2 E2 (Prim2SF (x / c1 * c2)).
Proof.
  intros Hx HK HE1 HE2 HK2 HE3 HE4 HE5 Hdig Hb1 Hb2.
  rewrite rescale_spec, Hx.
  rewrite <- (xorb_false_r s) at 1.
  apply (SFmul_below s false m2 e2 K E); try assumption.
  rewrite <- (xorb_false_r s) at 1. apply SFdiv_below; assumption.
Qed.
End Rescale.

(** [int()] on the specification of a float. *)
Definition sf_int (f : spec_float) : exn + Z :=
  match f with
  | S754_zero _ => inr 0
  | S754_finite s m e =>
      let a := if 0 <=? e then Z.pos m * 2 ^ e else Z.pos m / 2 ^ (- e) in
      inr (if s then - a else a)
  | S754_infinity _ => inl OverflowError
  | S754_nan => inl ValueError
  end.

Lemma py_int_sf_int x : py_int x = sf_int (Prim2SF x).
Proof. reflexivity. Qed.

Lemma sf_int_bounded_by f s K E :
  0 <= K ->
  bounded_by s K E f ->
  exists a, sf_int f = inr a
            /\ (s = false -> 0 <= a)
            /\ (E <= 0 -> Z.abs a <= K / 2 ^ (- E)).
Proof.
  intros HK [Hx | (m & e & Hx & He & Hm & _)]; rewrite Hx; cbn [sf_int].
  - exists 0. split; [reflexivity|]. split; [reflexivity|].
    intros HE. cbn [Z.abs]. apply Z.div_pos; [exact HK|]. apply Z.pow_pos_nonneg; lia.
  - set (mag := if 0 <=? e then Z.pos m * 2 ^ e else Z.pos m / 2 ^ (- e)).
    assert (Hmag : 0 <= mag).
    { subst mag. destruct (0 <=? e) eqn:E0.
      - apply Z.leb_le in E0. assert (0 < 2 ^ e) by (apply Z.pow_pos_nonneg; lia). nia.
      - apply Z.leb_gt in E0. apply Z.div_pos; [lia|]. apply Z.pow_pos_nonneg; lia. }
    exists (if s then - mag else mag). split; [reflexivity|]. split.
    + intros ->. exact Hmag.
    + intros HE.
      replace (Z.abs (if s then - mag else mag)) with mag by (destruct s; lia).
      subst mag. destruct (0 <=? e) eqn:E0.
      * apply Z.leb_le in E0. assert (e = 0) by lia. assert (E = 0) by lia. subst e E.
        cbn in Hm |- *. rewrite Z.div_1_r. lia.
      * apply Z.leb_gt in E0.
        assert (Hp1 : 0 < 2 ^ (E - e)) by (apply Z.pow_pos_nonneg; lia).
        assert (Hp2 : 0 < 2 ^ (- E)) by (apply Z.pow_pos_nonneg; lia).
        replace (- e) with ((- E) + (E - e)) by lia.
        rewrite Z.pow_add_r by lia.
        rewrite <- (Z.div_mul_cancel_r K (2 ^ (- E)) (2 ^ (E - e))) by lia.
        apply Z.div_le_mono; [nia | exact Hm].
Qed.

Lemma py_int_bounded_by_sf s K E f :
  0 <= K -> bounded_by s K E f -> s = false -> E <= 0 ->
  exists a, sf_int f = inr a /\ 0 <= a <= K / 2 ^ (- E).
Proof.
  intros HK Hb Hs HE.
  destruct (sf_int_bounded_by f s K E HK Hb) as (a & Ha & Hpos & Hup).
  exists a. split; [exact Ha|]. specialize (Hpos Hs). specialize (Hup HE). lia.
Qed.

Lemma py_int_bounded_by x s K E :
  0 <= K ->
  bounded_by s K E (Prim2SF x) ->
  exists a, py_int x = inr a
            /\ (s = false -> 0 <= a)
            /\ (E <= 0 -> Z.abs a <= K / 2 ^ (- E)).
Proof. intros HK Hb. rewrite py_int_sf_int. apply sf_int_bounded_by; assumption. Qed.

(** Every finite float rescales to a finite one when the constants leave
    room below the largest float. *)
Lemma rescale_finite (c1 c2 : float) (m1 m2 : positive) (e1 e2 E : Z) x s :
  Prim2SF c1 = S754_finite false m1 e1 ->
  Prim2SF c2 = S754_finite false m2 e2 ->
  emin <= E -> E <= emax - prec ->
  0 <= emax - prec - e1 - E ->
  emax - prec - (Zdigits2 (Z.pos m1) + e1) <= E ->
  2 ^ prec * 2 ^ (emax - prec - e1 - E) <= Z.pos m1 * (2 ^ prec - 1) ->
  0 <= emax - prec - E - e2 ->
  Z.pos m2 < 2 ^ (emax - prec - E - e2) ->
  (Prim2SF x = S754_zero s \/ exists m e, Prim2SF x = S754_finite s m e) ->
  bounded_by s (2 ^ prec - 1) (emax - prec) (Prim2SF (x / c1 * c2)).
Proof.
  intros Hc1 Hc2 HE1 HE2 Ht Hdig Hk1 Ht2 Hk2 [Hx | (m & e & Hx)].
  { left. apply (rescale_zero c1 c2 m1 m2 e1 e2 Hc1 Hc2). exact Hx. }
  pose proof (Prim2SF_valid x) as Hv. rewrite Hx in Hv.
  apply valid_finite in Hv. destruct Hv as (Hd & Hm & Hlo & Hhi).
  assert (HK : 0 < 2 ^ prec - 1 < 2 ^ prec) by (unfold prec; lia).
  apply (rescale_below c1 c2 m1 m2 e1 e2 Hc1 Hc2 x s m e (2 ^ prec - 1) E);
    try assumption; try lia.
  - apply (below_at _ _ _ _ (emax - prec - e - E)); try lia.
    replace (e - e1 + (emax - prec - e - E)) with (emax - prec - e1 - E) by lia.
    replace (E + (emax - prec - e - E)) with (emax - prec - e) by lia.
    assert (0 < 2 ^ (emax - prec - e1 - E)) by (apply Z.pow_pos_nonneg; lia).
    assert (1 <= 2 ^ (emax - prec - e))
      by (apply (Z.pow_le_mono_r 2 0); lia).
    nia.
  - apply (below_at _ _ _ _ (- (E + e2))); try lia.
    replace (E + e2 + - (E + e2)) with 0 by lia.
    replace (emax - prec + - (E + e2)) with (emax - prec - E - e2) by lia.
    rewrite Z.pow_0_r, Z.mul_1_r. nia.
Qed.

(** The largest float below 1. *)
Definition below_one : spec_float := S754_finite false (2 ^ 53 - 1) (- 53).

(** A float in [[0, c1)] rescales to at most the float just below [c2],
    for constants [c1] and [c2] that are no powers of two. *)
Lemma rescale_in_range (c1 c2 : float) (m1 m2 : positive) (e1 e2 : Z) x :
  Prim2SF c1 = S754_finite false m1 e1 ->
  Prim2SF c2 = S754_finite false m2 e2 ->
  Zdigits2 (Z.pos m1) = prec -> 2 ^ 52 < Z.pos m1 ->
  2 ^ 52 < Z.pos m2 -> Z.pos m2 < 2 ^ prec -> emin <= e2 -> e2 <= 0 ->
  (exists a, sf_int (SFmul prec emax below_one (S754_finite false m2 e2)) = inr a
             /\ 0 <= a <= (Z.pos m2 - 1) / 2 ^ (- e2)) ->
  (0 <=? x)%float = true -> (x <? c1)%float = true ->
  exists a, py_int (x / c1 * c2) = inr a
            /\ 0 <= a <= (Z.pos m2 - 1) / 2 ^ (- e2).
Proof.
  intros Hc1 Hc2 Hd1 Hm1lo Hm2lo Hm2hi He2 He2' Hspecial Hle Hlt.
  rewrite leb_spec in Hle. change (Prim2SF 0) with (S754_zero false) in Hle.
  rewrite ltb_spec, Hc1 in Hlt.
  assert (Hzero : 0 <= (Z.pos m2 - 1) / 2 ^ (- e2))
    by (apply Z.div_pos; [lia | apply Z.pow_pos_nonneg; lia]).
  destruct (classify_float x) as [_ Hx | s _ _ Hx | s _ _ Hx | s m e _ _ Hx];
    rewrite Hx in Hle, Hlt.
  - discriminate Hle.
  - destruct s; [discriminate Hle | discriminate Hlt].
  - exists 0. unfold py_int.
    rewrite (rescale_zero c1 c2 m1 m2 e1 e2 Hc1 Hc2 x s Hx).
    split; [reflexivity | lia].
  - destruct s; [discriminate Hle|].
    pose proof (Prim2SF_valid x) as Hv. rewrite Hx in Hv.
    apply valid_finite in Hv. destruct Hv as (Hd & Hm & Hlo & Hhi).
    assert (Hcmp : e < e1 \/ (e = e1 /\ Z.pos m < Z.pos m1)).
    { unfold SFltb, SFcompare in Hlt.
      destruct (Z.compare_spec e e1) as [Heq | Hl | Hg];
        [right | left; exact Hl | discriminate Hlt].
      split; [exact Heq|].
      destruct (Pos.compare_cont Eq m m1) eqn:Hc; try discriminate Hlt.
      exact Hc. }
    pose proof (digits2_pos_upper m1) as Hm1hi.
    change (Z.pos (digits2_pos m1)) with (Zdigits2 (Z.pos m1)) in Hm1hi.
    rewrite Hd1 in Hm1hi.
    (* the quotient is at most the largest float below 1 *)
    assert (Hq : bounded_by false (2 ^ 53 - 1) (- 53)
                   (SFdiv prec emax (S754_finite false m e) (S754_finite false m1 e1))).
    { change false with (xorb false false) at 1.
      apply SFdiv_below; try (unfold SpecFloat.emin, emax, prec in *; lia).
      apply (below_at _ _ _ _ (53 + e1 - e)); try lia.
      replace (e - e1 + (53 + e1 - e)) with 53 by lia.
      replace (- 53 + (53 + e1 - e)) with (e1 - e) by lia.
      unfold prec in *.
      destruct Hcmp as [Hl | [-> Hl]].
      - assert (2 <= 2 ^ (e1 - e)) by (apply (Z.pow_le_mono_r 2 1); lia).
        change (2 ^ 53) with (2 * 2 ^ 52) in *. nia.
      - rewrite Z.sub_diag, Z.pow_0_r. lia. }
    rewrite py_int_sf_int, (rescale_spec c1 c2 m1 m2 e1 e2 Hc1 Hc2), Hx.
    destruct Hq as [Hq | (mq & eq & Hq & Heq & Hmq & Hfit)]; rewrite Hq.
    + exists 0. split; [reflexivity | lia].
    + destruct (Z.eq_dec eq (- 53)) as [-> | Hne1];
        [destruct (Z.eq_dec (Z.pos mq) (2 ^ 53 - 1)) as [Heqm | Hne2]|].
      * replace mq with (Z.to_pos (2 ^ 53 - 1)) by (rewrite <- Heqm; reflexivity).
        exact Hspecial.
      * apply (py_int_bounded_by_sf false (Z.pos m2 - 1) e2); [lia | | reflexivity | exact He2'].
        change false with (xorb false false) at 1.
        apply (SFmul_below false false m2 e2 (2 ^ 53 - 2) (- 53));
          try (unfold SpecFloat.emin, emax, prec in *; lia).
        -- right. exists mq, (- 53). rewrite Z.sub_diag, Z.pow_0_r in *.
           repeat split; try lia; assumption.
        -- apply (below_at _ _ _ _ (53 - e2)); try lia.
           replace (- 53 + e2 + (53 - e2)) with 0 by lia.
           replace (e2 + (53 - e2)) with 53 by lia.
           rewrite Z.pow_0_r. change (2 ^ 53) with (2 * 2 ^ 52) in *. nia.
      * apply (py_int_bounded_by_sf false (Z.pos m2 - 1) e2); [lia | | reflexivity | exact He2'].
        change false with (xorb false false) at 1.
        apply (SFmul_below false false m2 e2 (2 ^ 53 - 2) (- 53));
          try (unfold SpecFloat.emin, emax, prec in *; lia).
        -- right. exists mq, eq.
           assert (2 <= 2 ^ (- 53 - eq)) by (apply (Z.pow_le_mono_r 2 1); lia).
           unfold prec in *. change (2 ^ 53) with (2 * 2 ^ 52) in *.
           repeat split; try lia; try assumption.
        -- apply (below_at _ _ _ _ (53 - e2)); try lia.
           replace (- 53 + e2 + (53 - e2)) with 0 by lia.
           replace (e2 + (53 - e2)) with 53 by lia.
           rewrite Z.pow_0_r. change (2 ^ 53) with (2 * 2 ^ 52) in *. nia.
Qed.

Lemma Prim2SF_1280 : Prim2SF 1280 = S754_finite false 5629499534213120 (-42).
Proof. reflexivity. Qed.
Lemma Prim2SF_640 : Prim2SF 640 = S754_finite false 5629499534213120 (-43).
Proof. reflexivity. Qed.
Lemma Prim2SF_720 : Prim2SF 720 = S754_finite false 6333186975989760 (-43).
Proof. reflexivity. Qed.
Lemma Prim2SF_360 : Prim2SF 360 = S754_finite false 6333186975989760 (-44).
Proof. reflexivity. Qed.

Lemma rescale_x_finite x s :
  (Prim2SF x = S754_zero s \/ exists m e, Prim2SF x = S754_finite s m e) ->
  exists a, py_int (x / 1280 * 640) = inr a.
Proof.
  intros Hx.
  pose proof (rescale_finite 1280 640 _ _ _ _ 961 x s Prim2SF_1280 Prim2SF_640) as Hb.
  destruct (py_int_bounded_by (x / 1280 * 640) s (2 ^ prec - 1) (emax - prec))
    as (a & Ha & _); [unfold prec; lia | | eauto].
  apply Hb; try exact Hx; vm_compute; try reflexivity; discriminate.
Qed.

Lemma rescale_y_finite x s :
  (Prim2SF x = S754_zero s \/ exists m e, Prim2SF x = S754_finite s m e) ->
  exists a, py_int (x / 720 * 360) = inr a.
Proof.
  intros Hx.
  pose proof (rescale_finite 720 360 _ _ _ _ 962 x s Prim2SF_720 Prim2SF_360) as Hb.
  destruct (py_int_bounded_by (x / 720 * 360) s (2 ^ prec - 1) (emax - prec))
    as (a & Ha & _); [unfold prec; lia | | eauto].
  apply Hb; try exact Hx; vm_compute; try reflexivity; discriminate.
Qed.

Lemma rescale_x_in_range x :
  (0 <=? x)%float = true -> (x <? 1280)%float = true ->
  exists a, py_int (x / 1280 * 640) = inr a /\ 0 <= a <= 639.
Proof.
  intros Hle Hlt.
  destruct (rescale_in_range 1280 640 _ _ _ _ x Prim2SF_1280 Prim2SF_640)
    as (a & Ha & Hr); try assumption; try reflexivity; try discriminate.
  - exists 639. split; [reflexivity | split; discriminate].
  - exists a. split; [exact Ha|]. exact Hr.
Qed.

Lemma rescale_y_in_range x :
  (0 <=? x)%float = true -> (x <? 720)%float = true ->
  exists a, py_int (x / 720 * 360) = inr a /\ 0 <= a <= 359.
Proof.
  intros Hle Hlt.
  destruct (rescale_in_range 720 360 _ _ _ _ x Prim2SF_720 Prim2SF_360)
    as (a & Ha & Hr); try assumption; try reflexivity; try discriminate.
  - exists 359. split; [reflexivity | split; discriminate].
  - exists a. split; [exact Ha|]. exact Hr.
Qed.

(** *** The two rescalings, by the kind of float *)

Lemma rescale_x_cases x :
  PrimFloat.is_nan x = false ->
  (PrimFloat.is_infinity x = true /\ py_int (x / 1280 * 640) = inl OverflowError)
  \/ (PrimFloat.is_infinity x = false /\ exists a, py_int (x / 1280 * 640) = inr a).
Proof.
  intros Hn.
  destruct (classify_float x) as [Hn' _ | s _ Hi Hx | s _ Hi Hx | s m e _ Hi Hx].
  - rewrite Hn in Hn'. discriminate Hn'.
  - left. split; [exact Hi|]. unfold py_int.
    rewrite (rescale_infinity 1280 640 _ _ _ _ Prim2SF_1280 Prim2SF_640 x s Hx).
    reflexivity.
  - right. split; [exact Hi|]. apply (rescale_x_finite x s). left. exact Hx.
  - right. split; [exact Hi|]. apply (rescale_x_finite x s). right. eauto.
Qed.

Lemma rescale_y_cases y :
  PrimFloat.is_nan y = false ->
  (PrimFloat.is_infinity y = true /\ py_int (y / 720 * 360) = inl OverflowError)
  \/ (PrimFloat.is_infinity y = false /\ exists b, py_int (y / 720 * 360) = inr b).
Proof.
  intros Hn.
  destruct (classify_float y) as [Hn' _ | s _ Hi Hy | s _ Hi Hy | s m e _ Hi Hy].
  - rewrite Hn in Hn'. discriminate Hn'.
  - left. split; [exact Hi|]. unfold py_int.
    rewrite (rescale_infinity 720 360 _ _ _ _ Prim2SF_720 Prim2SF_360 y s Hy).
    reflexivity.
  - right. split; [exact Hi|]. apply (rescale_y_finite y s). left. exact Hy.
  - right. split; [exact Hi|]. apply (rescale_y_finite y s). right. eauto.
Qed.

Lemma leb_zero_not_nan x : (0 <=? x)%float = true -> PrimFloat.is_nan x = false.
Proof.
  rewrite leb_spec. change (Prim2SF 0) with (S754_zero false). intros Hle.
  destruct (classify_float x) as [_ Hx | s Hn _ _ | s Hn _ _ | s m e Hn _ _];
    try exact Hn.
  rewrite Hx in Hle. discriminate Hle.
Qed.

(** ** When the frame handler of [eyeware.py] raises, and where the marker lands *)

Section RescaledMarker.
Context {address response : Type} `{Truthy response}.
Abbreviation event := (event address response).

Lemma cv2_point_spec a b :
  cv2_point (a, b) = true
  <-> (-2147483648 <= a <= 2147483647) /\ (-2147483648 <= b <= 2147483647).
Proof.
  unfold cv2_point, c_int. cbn [fst snd].
  change (- 2 ^ 31) with (-2147483648). change (2 ^ 31 - 1) with 2147483647.
  rewrite !andb_true_iff, !Z.leb_le. tauto.
Qed.

(** X7. How a frame's handling in [eyeware.py] ends, by the stored gaze
    coordinates alone (the frame being one the handler has decoded, with
    its tracked persons).  It raises [OverflowError], from [int()], exactly
    when neither coordinate is NaN and one of them is infinite.  It raises
    [cv2.error], from the first marker circle, exactly when neither is NaN,
    both are finite and a truncation of the rescaled values is not a C int.
    It returns exactly when a coordinate is NaN, or both are finite and
    both truncations are C ints.  It raises nothing else; in particular
    the rescaling of a finite coordinate never overflows to an infinity. *)
Theorem frame_handler_exceptions fr (self : Eyeware.GazeViewer address) :
  let g := Eyeware._gaze_coordinates self in
  let r := result (Eyeware._handle_video_stream (response := response) fr self) in
  let finite x := (PrimFloat.is_nan x || PrimFloat.is_infinity x) = false in
  let truncations a b :=
    py_int (fst g / 1280 * 640)%float = inr a
    /\ py_int (snd g / 720 * 360)%float = inr b in
  (r = Raised OverflowError
   <-> math_isnan (fst g) = false /\ math_isnan (snd g) = false
       /\ (PrimFloat.is_infinity (fst g) = true
           \/ PrimFloat.is_infinity (snd g) = true))
  /\ (r = Raised cv2_error
      <-> finite (fst g) /\ finite (snd g)
          /\ exists a b, truncations a b /\ cv2_point (a, b) = false)
  /\ (r = Returned tt
      <-> (math_isnan (fst g) = true \/ math_isnan (snd g) = true)
          \/ (finite (fst g) /\ finite (snd g)
              /\ exists a b, truncations a b /\ cv2_point (a, b) = true))
  /\ (forall e, r = Raised e -> e = OverflowError \/ e = cv2_error)
  /\ (finite (fst g) -> finite (snd g) -> exists a b, truncations a b).
Proof.
  intros g r finite truncations. subst r finite truncations.
  pose proof (_handle_video_stream_run (response := response) fr self) as Hrun.
  cbv zeta in Hrun. fold g in Hrun. rewrite Hrun. clear Hrun.
  unfold math_isnan.
  destruct (PrimFloat.is_nan (fst g)) eqn:Hnx; cbn [orb].
  { cbn [result snd]. repeat split; try discriminate; try (left; left; reflexivity).
    - intros (Hc & _). discriminate Hc.
    - intros (Hc & _). discriminate Hc. }
  destruct (PrimFloat.is_nan (snd g)) eqn:Hny; cbn [orb].
  { cbn [result snd]. repeat split; try discriminate; try (left; right; reflexivity).
    - intros (_ & Hc & _). discriminate Hc.
    - intros (_ & Hc & _). discriminate Hc. }
  destruct (rescale_x_cases _ Hnx) as [[Hix Hpx] | [Hix (a & Hpx)]];
    rewrite Hpx, Hix.
  { cbn [result snd]. repeat split; try discriminate; auto.
    - intros (Hc & _). discriminate Hc.
    - intros [[Hc | Hc] | (Hc & _)]; discriminate Hc.
    - intros e He. injection He as <-. left. reflexivity. }
  destruct (rescale_y_cases _ Hny) as [[Hiy Hpy] | [Hiy (b & Hpy)]];
    rewrite Hpy, Hiy.
  { cbn [result snd]. repeat split; try discriminate; auto.
    - intros (_ & Hc & _). discriminate Hc.
    - intros [[Hc | Hc] | (_ & Hc & _)]; discriminate Hc.
    - intros e He. injection He as <-. left. reflexivity. }
  destruct (cv2_point (a, b)) eqn:Hfit; cbn [result snd].
  - repeat split; try discriminate; eauto.
    + intros (_ & _ & [Hc | Hc]); discriminate Hc.
    + intros (_ & _ & a' & b' & (Ha' & Hb') & Hc).
      injection Ha' as <-. injection Hb' as <-. congruence.
    + right. repeat split. eauto.
  - repeat split; try discriminate; eauto.
    + intros (_ & _ & [Hc | Hc]); discriminate Hc.
    + intros [[Hc | Hc] | (_ & _ & a' & b' & (Ha' & Hb') & Hc)]; try discriminate Hc.
      injection Ha' as <-. injection Hb' as <-. congruence.
    + intros e He. injection He as <-. right. reflexivity.
Qed.

(** X8. In [eyeware.py], when the stored gaze point lies in the assumed
    1280x720 source, 0 <= x < 1280 and 0 <= y < 720, the handler returns
    and draws both marker circles at one pixel of the 640x360 frame,
    0 <= a <= 639 and 0 <= b <= 359, and no marker anywhere else. *)
Theorem marker_inside_frame fr (self : Eyeware.GazeViewer address) :
  let g := Eyeware._gaze_coordinates self in
  (0 <=? fst g)%float = true -> (fst g <? 1280)%float = true ->
  (0 <=? snd g)%float = true -> (snd g <? 720)%float = true ->
  let r := Eyeware._handle_video_stream (response := response) fr self in
  exists a b,
    0 <= a <= 639 /\ 0 <= b <= 359
    /\ result r = Returned tt
    /\ In (circle (a, b) Eyeware.MARKER_SIZE Eyeware.MARKER_COLOR 2) (trace r)
    /\ In (circle (a, b) Eyeware.SECONDARY_MARKER_SIZE
                  Eyeware.SECONDARY_MARKER_COLOR 2) (trace r)
    /\ (forall c rad col, In (circle c rad col 2) (trace r) -> c = (a, b)).
Proof.
  intros g Hx0 Hx1 Hy0 Hy1 r. subst r.
  destruct (rescale_x_in_range _ Hx0 Hx1) as (a & Ha & Hra).
  destruct (rescale_y_in_range _ Hy0 Hy1) as (b & Hb & Hrb).
  exists a, b. split; [exact Hra|]. split; [exact Hrb|].
  pose proof (_handle_video_stream_run (response := response) fr self) as Hrun.
  cbv zeta in Hrun. fold g in Hrun. rewrite Hrun. clear Hrun.
  unfold math_isnan.
  rewrite (leb_zero_not_nan _ Hx0), (leb_zero_not_nan _ Hy0), Ha, Hb.
  replace (cv2_point (a, b)) with true
    by (symmetry; apply cv2_point_spec; lia).
  cbn [orb trace result fst snd].
  split; [reflexivity|]. split; [|split].
  - apply in_or_app. right. left. reflexivity.
  - apply in_or_app. right. right. left. reflexivity.
  - intros c rad col Hin.
    apply in_app_or in Hin. destruct Hin as [Hin | Hin];
      [apply in_app_or in Hin; destruct Hin as [Hin | Hin]
      |apply in_app_or in Hin; destruct Hin as [Hin | Hin]].
    + apply in_passes_circle in Hin.
      destruct Hin as (_ & _ & _ & _ & _ & _ & Hth). discriminate Hth.
    + destruct Hin as [Hin | []]. discriminate Hin.
    + destruct Hin as [Hin | [Hin | []]]; injection Hin as <- _ _; reflexivity.
    + destruct (in_display_circle _ _ _ _ _ _ Hin).
Qed.
End RescaledMarker.

(** ** Repeated shutdowns *)

Section RepeatedShutdown.
Context {address response : Type} `{Truthy response}.
Abbreviation event := (event address response).

Definition is_api_shutdown (e : event) : bool :=
  match e with api_shutdown => true | _ => false end.

(** How many times a trace shuts the API down. *)
Definition shutdowns (t : list event) : nat :=
  List.length (filter is_api_shutdown t).

Lemma shutdowns_app t1 t2 : shutdowns (t1 ++ t2) = (shutdowns t1 + shutdowns t2)%nat.
Proof. unfold shutdowns. rewrite filter_app, List.length_app. reflexivity. Qed.

Lemma shutdowns_passes g objs : shutdowns (flat_map (pass g) objs) = 0%nat.
Proof.
  induction objs as [|item objs IH]; [reflexivity|].
  cbn [flat_map]. rewrite shutdowns_app, IH.
  unfold pass, label, box. destruct (rect (snd item)) as [[[x0 y0] x1] y1].
  destruct (is_seen (snd item)); reflexivity.
Qed.

(** The frames that ask to quit. *)
Definition pyside_quits (i : Pyside.input response) : bool :=
  match i with
  | Pyside.video_frame fr => Pyside.key fr mod 256 =? 113
  | _ => false
  end.

Definition eyeware_quits (i : Eyeware.input response) : bool :=
  match i with
  | Eyeware.video_frame fr => Eyeware.key fr mod 256 =? 113
  | _ => false
  end.

Lemma pyside_dispatch_shutdowns (i : Pyside.input response)
      (self : Pyside.GazeViewer address) :
  result (Pyside.dispatch i self) = Returned tt ->
  shutdowns (trace (Pyside.dispatch i self)) = if pyside_quits i then 1%nat else 0%nat.
Proof.
  destruct i as [error | error | x y | fr]; cbn [Pyside.dispatch pyside_quits].
  - intros _. unfold Pyside.on_frontend. rewrite zoom_run. cbn [trace fst].
    unfold Pyside._handle_connect_response. destruct (truthy error); reflexivity.
  - unfold Pyside.on_frontend. rewrite zoom_run. cbn [trace result fst snd].
    unfold Pyside._handle_camera_start_response.
    destruct (truthy error); [discriminate | reflexivity].
  - reflexivity.
  - intros _. rewrite pyside_handle_video_stream_run. cbn [trace fst].
    rewrite <- land_255. unfold shutdown_sequence.
    destruct (Z.land (Pyside.key fr) 255 =? 113); reflexivity.
Qed.

Lemma eyeware_dispatch_shutdowns (i : Eyeware.input response)
      (s : Eyeware.script address) :
  result (Eyeware.dispatch i s) = Returned tt ->
  shutdowns (trace (Eyeware.dispatch i s)) = if eyeware_quits i then 1%nat else 0%nat.
Proof.
  unfold Eyeware.dispatch, Eyeware.on_main_window. rewrite zoom_run.
  cbn [trace result fst snd].
  destruct i as [error | error | x y | fr]; cbn [eyeware_quits].
  - intros _. unfold Eyeware.on_frontend. rewrite zoom_run. cbn [trace fst].
    unfold Eyeware._handle_connect_response. destruct (truthy error); reflexivity.
  - unfold Eyeware.on_frontend. rewrite zoom_run. cbn [trace result fst snd].
    unfold Eyeware._handle_camera_start_response.
    destruct (truthy error); [discriminate | reflexivity].
  - reflexivity.
  - pose proof (_handle_video_stream_run (response := response) fr
                  (Eyeware.main_window s)) as Hrun.
    cbv zeta in Hrun. rewrite Hrun. clear Hrun.
    assert (Hd : shutdowns (display (response := response) fr (Eyeware.main_window s))
                 = if Eyeware.key fr mod 256 =? 113 then 1%nat else 0%nat).
    { rewrite <- land_255. unfold display, shutdown_sequence.
      destruct (Z.land (Eyeware.key fr) 255 =? 113); reflexivity. }
    destruct (math_isnan _ || math_isnan _);
      [|destruct (py_int _) as [e|x];
       [|destruct (py_int _) as [e|y]; [|destruct (cv2_point _)]]];
      cbn [trace result fst snd]; intros Hr; try discriminate Hr;
      rewrite !shutdowns_app, shutdowns_passes, Hd; reflexivity.
Qed.

Lemma pyside_deliver_shutdowns (ins : list (Pyside.input response)) :
  forall self : Pyside.GazeViewer address,
    result (Pyside.deliver ins self) = Returned tt ->
    shutdowns (trace (Pyside.deliver ins self)) = List.length (filter pyside_quits ins).
Proof.
  induction ins as [|i ins IH]; intros self Hr; [reflexivity|].
  cbn [Pyside.deliver filter] in *.
  apply bind_inv_returned in Hr. destruct Hr as ([] & Hi & Hk & ->).
  cbn [trace fst]. rewrite shutdowns_app, (IH _ Hk), (pyside_dispatch_shutdowns i self Hi).
  destruct (pyside_quits i); reflexivity.
Qed.

Lemma eyeware_deliver_shutdowns (ins : list (Eyeware.input response)) :
  forall s : Eyeware.script address,
    result (Eyeware.deliver ins s) = Returned tt ->
    shutdowns (trace (Eyeware.deliver ins s)) = List.length (filter eyeware_quits ins).
Proof.
  induction ins as [|i ins IH]; intros s Hr; [reflexivity|].
  cbn [Eyeware.deliver filter] in *.
  apply bind_inv_returned in Hr. destruct Hr as ([] & Hi & Hk & ->).
  cbn [trace fst]. rewrite shutdowns_app, (IH _ Hk), (eyeware_dispatch_shutdowns i s Hi).
  destruct (eyeware_quits i); reflexivity.
Qed.

(** X9. In both scripts nothing remembers that the API was shut down: over
    callbacks that all return, the API is shut down once for every frame
    that comes with the [q] key, so a second such frame shuts it down a
    second time. *)
Theorem one_shutdown_per_q_frame
        (pins : list (Pyside.input response)) (pself : Pyside.GazeViewer address)
        (eins : list (Eyeware.input response)) (es : Eyeware.script address) :
  (result (Pyside.deliver pins pself) = Returned tt ->
   shutdowns (trace (Pyside.deliver pins pself))
   = List.length (filter pyside_quits pins))
  /\ (result (Eyeware.deliver eins es) = Returned tt ->
      shutdowns (trace (Eyeware.deliver eins es))
      = List.length (filter eyeware_quits eins)).
Proof.
  split; [apply pyside_deliver_shutdowns | apply eyeware_deliver_shutdowns].
Qed.
End RepeatedShutdown.

(** ** How far [main] of [eyeware.py] gets *)

Section MainOfEyeware.
Context {address response : Type} `{Truthy response}.
Abbreviation event := (event address response).

(** X10. [main()] of [eyeware.py] builds the viewer (the video receiver
    with its callback, the frontend with its stream handler and connect
    callback, the tracker), then calls [play_warning_sound()], which, the
    module's [play_sound] being [False], calls [terminate()] on a process
    that was never started: [main] leaves with [AttributeError], having
    started no sound process and printed nothing. *)
Theorem main_raises_at_play_warning_sound (a : address) :
  Eyeware.main (response := response) a
  = ([VideoReceiver; add_callback cb_handle_video_stream; receiver_start;
      FrontendApi;
      register_stream_handler GAZE_IN_IMAGE cb_handle_gaze_in_image_stream;
      api_start cb_handle_connect_response;
      CentroidTracker;
      Process_terminate "playsound"%string "/sound/soundeffect.mp3"%string],
     {| Eyeware.play_sound := false;
        Eyeware.main_window :=
          {| Eyeware.frontend := {| Eyeware._video_receiver_address := a;
                                    Eyeware.connected := false |};
             Eyeware._gaze_coordinates := (0, 0)%float |} |},
     Raised AttributeError)
  /\ (forall s, ~ In (print_str s) (trace (Eyeware.main (response := response) a)))
  /\ (forall target arg,
        ~ In (Process_start target arg) (trace (Eyeware.main (response := response) a))).
Proof.
  split; [reflexivity|]. split.
  - intros s Hin. cbn in Hin. intuition discriminate.
  - intros target arg Hin. cbn in Hin. intuition discriminate.
Qed.
End MainOfEyeware.

(** ** The further properties at concrete inputs *)

Definition quit_street : Eyeware.frame :=
  {| Eyeware.width := 1280; Eyeware.height := 720;
     Eyeware.objects := [(0, close_unseen)]; Eyeware.key := 113 |}.

(** A key code with bits above the low byte, as some platforms report. *)
Definition quit_plain : Pyside.frame :=
  {| Pyside.width := 1280; Pyside.height := 720; Pyside.key := 1048689 |}.

Lemma q_key_closes_witness :
  In (api_shutdown (address := string) (response := Z))
     (trace (Pyside._handle_video_stream quit_plain (pyside_viewer (640, 360)%float)))
  /\ In (api_shutdown (address := string) (response := Z))
        (trace (Eyeware._handle_video_stream quit_street
                  (eyeware_viewer (640, 360)%float)))
  /\ ~ In (api_shutdown (address := string) (response := Z))
          (trace (Eyeware._handle_video_stream street
                    (eyeware_viewer (640, 360)%float))).
Proof.
  destruct (q_key_closes (response := Z) quit_plain (pyside_viewer (640, 360)%float)
              quit_street (eyeware_viewer (640, 360)%float))
    as [[Hp _] He].
  destruct (q_key_closes (response := Z) quit_plain (pyside_viewer (640, 360)%float)
              street (eyeware_viewer (640, 360)%float))
    as [_ He'].
  split; [|split].
  - apply Hp. reflexivity.
  - apply (proj1 (He eq_refl)). reflexivity.
  - intros Hin. apply (proj1 (He' eq_refl)) in Hin. discriminate Hin.
Defined.

Lemma connected_once_connected_witness :
  Eyeware.GazeViewer_connected
    (Eyeware.main_window
       (store (Eyeware.deliver
                 [Eyeware.connect_response (7 : Z);
                  Eyeware.connect_response (0 : Z);
                  Eyeware.video_frame quit_street;
                  Eyeware.connect_response (7 : Z)]
                 (store (Eyeware.main (response := Z) receiver)))))
  = true
  /\ Pyside.GazeViewer_connected
       (store (Pyside.deliver
                 [Pyside.connect_response (7 : Z); Pyside.video_frame quit_plain]
                 (snd (Pyside.main (response := Z) receiver))))
     = false.
Proof.
  destruct (connected_once_connected (response := Z) receiver)
    as (_ & _ & Hpyside & Heyeware).
  split.
  - exact (Heyeware [Eyeware.connect_response (7 : Z);
                     Eyeware.connect_response (0 : Z);
                     Eyeware.video_frame quit_street;
                     Eyeware.connect_response (7 : Z)] eq_refl).
  - exact (Hpyside [Pyside.connect_response (7 : Z); Pyside.video_frame quit_plain]
                   eq_refl).
Defined.

Lemma marker_inside_frame_witness :
  (0 <=? 1279.5)%float = true /\ (1279.5 <? 1280)%float = true
  /\ (0 <=? 26)%float = true /\ (26 <? 720)%float = true
  /\ exists a b,
      0 <= a <= 639 /\ 0 <= b <= 359
      /\ In (circle (address := string) (response := Z) (a, b) 5 [0; 250; 50] 2)
            (trace (Eyeware._handle_video_stream street
                      (eyeware_viewer (1279.5, 26)%float))).
Proof.
  repeat (split; [reflexivity|]).
  destruct (marker_inside_frame (response := Z) street
              (eyeware_viewer (1279.5, 26)%float) eq_refl eq_refl eq_refl eq_refl)
    as (a & b & Ha & Hb & _ & Hin & _).
  exists a, b. repeat split; try apply Ha; try apply Hb. exact Hin.
Defined.

Lemma one_shutdown_per_q_frame_witness :
  shutdowns (trace (Pyside.deliver
                      [Pyside.video_frame quit_plain;
                       Pyside.gaze_in_image 1 2;
                       Pyside.video_frame quit_plain;
                       Pyside.video_frame plain]
                      (pyside_viewer (640, 360)%float)))
  = 2%nat
  /\ shutdowns (trace (Eyeware.deliver
                         [Eyeware.video_frame quit_street;
                          Eyeware.video_frame street;
                          Eyeware.video_frame quit_street;
                          Eyeware.video_frame quit_street]
                         (store (Eyeware.main (response := Z) receiver))))
     = 3%nat.
Proof.
  split.
  - exact (proj1 (one_shutdown_per_q_frame (response := Z)
                    [Pyside.video_frame quit_plain;
                     Pyside.gaze_in_image 1 2;
                     Pyside.video_frame quit_plain;
                     Pyside.video_frame plain]
                    (pyside_viewer (640, 360)%float)
                    [] (store (Eyeware.main (response := Z) receiver)))
                 eq_refl).
  - exact (proj2 (one_shutdown_per_q_frame (response := Z)
                    [] (pyside_viewer (640, 360)%float)
                    [Eyeware.video_frame quit_street;
                     Eyeware.video_frame street;
                     Eyeware.video_frame quit_street;
                     Eyeware.video_frame quit_street]
                    (store (Eyeware.main (response := Z) receiver)))
                 eq_refl).
Defined.

Lemma frame_handler_exceptions_witness :
  result (Eyeware._handle_video_stream (response := Z) street
            (eyeware_viewer (4294967296, 300)%float))
  = Raised cv2_error
  /\ result (Eyeware._handle_video_stream (response := Z) street
               (eyeware_viewer (300, neg_infinity)%float))
     = Raised OverflowError
  /\ result (Eyeware._handle_video_stream (response := Z) street
               (eyeware_viewer (-100, 720)%float))
     = Returned tt.
Proof.
  split; [|split].
  - apply (proj1 (proj2 (frame_handler_exceptions (response := Z) street
                           (eyeware_viewer (4294967296, 300)%float)))).
    split; [reflexivity|]. split; [reflexivity|].
    exists 2147483648, 150. repeat split; reflexivity.
  - apply (proj1 (frame_handler_exceptions (response := Z) street
                    (eyeware_viewer (300, neg_infinity)%float))).
    split; [reflexivity|]. split; [reflexivity|]. right. reflexivity.
  - apply (proj1 (proj2 (proj2 (frame_handler_exceptions (response := Z) street
                                  (eyeware_viewer (-100, 720)%float))))).
    right. split; [reflexivity|]. split; [reflexivity|].
    exists (-50), 360. repeat split; reflexivity.
Defined.
